(** * FPGA accelerator controller and performance profiler

    A shallow embedding of [scripts/fpga_controller.py] and of
    [scripts/performance_profiler.py], with the properties of the
    controller's state machine, of its metrics history, of the statistics
    computed from it and of the three tests of the profiler.

    Conventions of the embedding.
    - Python floats are modelled by exact rationals ([Q]); [int] fields of
      the configuration are [Z].
    - A method of [FPGAController] is a computation in the monad [M]: it
      takes the machine (the controller object together with the clocks and
      the random generator it reads) and returns either a value or a raised
      exception, together with the machine afterwards.  An exception does
      not undo the mutations made before it was raised.
    - [print] and [time.sleep] have no effect on any modelled value and are
      left out.
    - A loop that runs while the clock allows takes a bound on its number
      of iterations ([fuel]) and returns [None] when the bound is reached;
      the theorems about such loops say when they return. *)

From Stdlib Require Import ZArith QArith Qround Qabs List String Bool Lia Lqa.
From Stdlib Require Import Sorting.Sorted Sorting.Permutation.
From Stdlib Require Import Strings.Byte.
Import ListNotations.

Local Open Scope Q_scope.

(** ** Python runtime: exceptions and results *)

Module Py.

(** The exceptions the two scripts can raise. *)
Inductive exn : Type :=
| RuntimeError (msg : string)
| StatisticsError
| ValueError
| IndexError
| ZeroDivisionError.

Inductive result (A : Type) : Type :=
| Ok (a : A)
| Raise (e : exn).
Arguments Ok {A} a.
Arguments Raise {A} e.

Definition rbind {A B} (r : result A) (k : A -> result B) : result B :=
  match r with
  | Ok a => k a
  | Raise e => Raise e
  end.

Definition bytes := list Byte.byte.

(** A [Dict] with string keys, in insertion order. *)
Definition dict := list (string * Q).

Fixpoint dict_get (d : dict) (key : string) : option Q :=
  match d with
  | [] => None
  | (k, v) :: d' => if String.eqb k key then Some v else dict_get d' key
  end.

End Py.

Import Py.

(** Builtin functions and operators, on lists of floats. *)
Module builtins.

Definition len {A} (l : list A) : Z := Z.of_nat (List.length l).

(** [a / b] on floats. *)
Definition truediv (a b : Q) : result Q :=
  if Qeq_bool b 0 then Raise ZeroDivisionError else Ok (a / b).

(** [int(x)]: truncation towards zero. *)
Definition int (x : Q) : Z := Z.quot (Qnum x) (Zpos (Qden x)).

(** [l[i]], a negative index counting from the end. *)
Definition getitem (l : list Q) (i : Z) : result Q :=
  if (0 <=? i)%Z && (i <? len l)%Z then Ok (nth (Z.to_nat i) l 0)
  else if (- len l <=? i)%Z && (i <? 0)%Z
       then Ok (nth (Z.to_nat (len l + i)) l 0)
  else Raise IndexError.

(** [l[-k:]] for a positive [k]: the last [min k (len l)] items. *)
Definition last_items {A} (k : nat) (l : list A) : list A :=
  skipn (List.length l - k) l.

(** [sum(l)].  The sum is exact here; the source adds floats one by one
    and rounds at each step, so the mean it computes can differ from the
    exact one in the last bits. *)
Definition sum (l : list Q) : Q := fold_left Qplus l 0.

Definition Qltb (x y : Q) : bool := negb (Qle_bool y x).

(** [max(l)] and [min(l)]: the first greatest (least) item. *)
Definition max (l : list Q) : result Q :=
  match l with
  | [] => Raise ValueError
  | x :: l' => Ok (fold_left (fun m y => if Qltb m y then y else m) l' x)
  end.

Definition min (l : list Q) : result Q :=
  match l with
  | [] => Raise ValueError
  | x :: l' => Ok (fold_left (fun m y => if Qltb y m then y else m) l' x)
  end.

(** [sorted(l)]: ascending and stable. *)
Fixpoint insert (x : Q) (l : list Q) : list Q :=
  match l with
  | [] => [x]
  | y :: l' => if Qltb y x then y :: insert x l' else x :: l
  end.

Fixpoint sorted (l : list Q) : list Q :=
  match l with
  | [] => []
  | x :: l' => insert x (sorted l')
  end.

(** [sorted(l)[int(len(l) * frac)]], the expression behind every
    reported percentile.  [frac] is [0.95] or [0.99], modelled by the
    exact fractions [95 # 100] and [99 # 100]; the float products
    truncate to the same integers. *)
Definition rank_item (frac : Q) (l : list Q) : result Q :=
  getitem (sorted l) (int (inject_Z (len l) * frac)).

End builtins.

(** [random.uniform(a, b)] is [a + (b - a) * random()]; [u] is the value
    drawn by [random()], a number of the interval [0, 1). *)
Definition uniform (a b u : Q) : Q := a + (b - a) * u.

(** ** The [statistics] module *)

Module statistics.

(** [statistics.mean]: the exact mean. *)
Definition mean (data : list Q) : result Q :=
  if (builtins.len data <? 1)%Z then Raise StatisticsError
  else Ok (builtins.sum data / inject_Z (builtins.len data)).

(** [statistics.median]: the middle item, or the mean of the two middle
    items. *)
Definition median (data : list Q) : result Q :=
  let data := builtins.sorted data in
  let n := builtins.len data in
  if (n =? 0)%Z then Raise StatisticsError
  else if (n mod 2 =? 1)%Z then builtins.getitem data (n / 2)
  else rbind (builtins.getitem data (n / 2 - 1)) (fun lo =>
       rbind (builtins.getitem data (n / 2)) (fun hi =>
       Ok ((lo + hi) / 2))).

Section Stdev.
(** The square root of the float library. *)
Variable sqrt : Q -> Q.

(** [statistics.variance]: the sample variance, with denominator
    [n - 1]. *)
Definition variance (data : list Q) : result Q :=
  let n := builtins.len data in
  if (n <? 2)%Z then Raise StatisticsError
  else
    let c := builtins.sum data / inject_Z n in
    let ss := builtins.sum (map (fun x => (x - c) * (x - c)) data) in
    Ok (ss / inject_Z (n - 1)).

(** [statistics.stdev]: the square root of the sample variance. *)
Definition stdev (data : list Q) : result Q :=
  rbind (variance data) (fun v => Ok (sqrt v)).
End Stdev.

End statistics.

(** ** [fpga_controller.py] *)

Inductive ComponentStatus : Type := ACTIVE | IDLE | ERROR.

(** FPGA configuration parameters. *)
Record FPGAConfig : Type := mkFPGAConfig {
  window_size : Z;
  active_cores : Z;
  data_rate : Z;
  filter_threshold : Z
}.

(** [FPGAConfig()]: the defaults of the dataclass. *)
Definition FPGAConfig_default : FPGAConfig :=
  {| window_size := 1024; active_cores := 4; data_rate := 1000;
     filter_threshold := 100 |}.

(** Real-time performance metrics. *)
Record PerformanceMetrics : Type := mkPerformanceMetrics {
  timestamp : Q;
  latency_us : Q;
  throughput_mbps : Q;
  jitter_us : Q;
  pcie_status : ComponentStatus;
  dma_status : ComponentStatus;
  compute_status : ComponentStatus
}.

Record FPGAController : Type := mkFPGAController {
  config : FPGAConfig;
  is_connected : bool;
  metrics_history : list PerformanceMetrics
}.

(** [FPGAController()]. *)
Definition FPGAController_init : FPGAController :=
  {| config := FPGAConfig_default; is_connected := false;
     metrics_history := [] |}.

(** A source of numbers read one after the other: a clock or the random
    generator.  [feed] is the whole sequence, [pos] the next position. *)
Record source : Type := mkSource { feed : nat -> Q; pos : nat }.

Definition next (s : source) : Q * source :=
  (feed s (pos s), {| feed := feed s; pos := S (pos s) |}).

(** The controller object and what its methods read from outside. *)
Record Machine : Type := mkMachine {
  self : FPGAController;
  time_time : source;
  perf_counter : source;
  random : source
}.

(** Computations that read and change the machine and may raise. *)
Definition M (A : Type) : Type := Machine -> result A * Machine.

Definition ret {A} (a : A) : M A := fun m => (Ok a, m).

Definition raise {A} (e : exn) : M A := fun m => (Raise e, m).

Definition bind {A B} (c : M A) (k : A -> M B) : M B :=
  fun m =>
    match c m with
    | (Ok a, m') => k a m'
    | (Raise e, m') => (Raise e, m')
    end.

Definition lift {A} (r : result A) : M A := fun m => (r, m).

Declare Scope py_scope.
Delimit Scope py_scope with py.
Notation "x <- c ;; k" := (bind c (fun x => k))
  (at level 61, c at next level, right associativity) : py_scope.
Notation "c ;;; k" := (bind c (fun _ => k))
  (at level 61, right associativity) : py_scope.
Local Open Scope py_scope.

Definition get_self : M FPGAController := fun m => (Ok (self m), m).

Definition set_self (c : FPGAController) : M unit :=
  fun m => (Ok tt, {| self := c; time_time := time_time m;
                      perf_counter := perf_counter m; random := random m |}).

(** [time.time()]. *)
Definition read_time : M Q :=
  fun m => let (t, s) := next (time_time m) in
           (Ok t, {| self := self m; time_time := s;
                     perf_counter := perf_counter m; random := random m |}).

(** [time.perf_counter()]. *)
Definition read_perf_counter : M Q :=
  fun m => let (t, s) := next (perf_counter m) in
           (Ok t, {| self := self m; time_time := time_time m;
                     perf_counter := s; random := random m |}).

(** [random.random()]. *)
Definition read_random : M Q :=
  fun m => let (u, s) := next (random m) in
           (Ok u, {| self := self m; time_time := time_time m;
                     perf_counter := perf_counter m; random := s |}).

(** [random.uniform(a, b)]. *)
Definition random_uniform (a b : Q) : M Q :=
  u <- read_random ;; ret (uniform a b u).

(** [connect]: establish the connection. *)
Definition connect : M bool :=
  c <- get_self ;;
  set_self {| config := config c; is_connected := true;
              metrics_history := metrics_history c |} ;;;
  ret true.

(** [disconnect]. *)
Definition disconnect : M unit :=
  c <- get_self ;;
  set_self {| config := config c; is_connected := false;
              metrics_history := metrics_history c |}.

(** [hasattr(self.config, key)] for the names of the four fields.  The
    names every Python object answers to, such as [__class__], are outside
    the model: for them the source's [hasattr] is true as well, and its
    [setattr] raises or adds an attribute.  They all begin with two
    underscores; statements about arbitrary keywords exclude them. *)
Definition hasattr (key : string) : bool :=
  existsb (String.eqb key)
    ["window_size"; "active_cores"; "data_rate"; "filter_threshold"]%string.

(** [setattr(self.config, key, value)] for a name accepted by [hasattr]. *)
Definition setattr (cfg : FPGAConfig) (key : string) (value : Z) : FPGAConfig :=
  if String.eqb key "window_size" then
    {| window_size := value; active_cores := active_cores cfg;
       data_rate := data_rate cfg; filter_threshold := filter_threshold cfg |}
  else if String.eqb key "active_cores" then
    {| window_size := window_size cfg; active_cores := value;
       data_rate := data_rate cfg; filter_threshold := filter_threshold cfg |}
  else if String.eqb key "data_rate" then
    {| window_size := window_size cfg; active_cores := active_cores cfg;
       data_rate := value; filter_threshold := filter_threshold cfg |}
  else if String.eqb key "filter_threshold" then
    {| window_size := window_size cfg; active_cores := active_cores cfg;
       data_rate := data_rate cfg; filter_threshold := value |}
  else cfg.

(** The body of the loop of [update_config], for one item of [kwargs]. *)
Definition update_item (cfg : FPGAConfig) (kv : string * Z) : FPGAConfig :=
  if hasattr (fst kv) then setattr cfg (fst kv) (snd kv) else cfg.

(** [update_config]: [kwargs] holds the keyword arguments in the order of
    the call, with integer values as the fields are declared; Python
    allows a name only once in a call. *)
Definition update_config (kwargs : list (string * Z)) : M bool :=
  c <- get_self ;;
  set_self {| config := fold_left update_item kwargs (config c);
              is_connected := is_connected c;
              metrics_history := metrics_history c |} ;;;
  ret true.

(** [read_metrics]: one simulated sample, appended to the history.  The
    mixed integer and float arithmetic of the source is exact here;
    statements about arbitrary configurations bound [active_cores] to the
    range where the two agree. *)
Definition read_metrics : M PerformanceMetrics :=
  c <- get_self ;;
  let base_latency := inject_Z (50 + (8 - active_cores (config c)) * 10) in
  r1 <- random_uniform (-5) 15 ;;
  let latency := base_latency + r1 in
  r2 <- random_uniform (-50) 50 ;;
  let throughput := inject_Z (active_cores (config c) * 250) + r2 in
  jitter <- random_uniform 0 5 ;;
  now <- read_time ;;
  let metrics :=
    {| timestamp := now; latency_us := latency;
       throughput_mbps := throughput; jitter_us := jitter;
       pcie_status := ACTIVE; dma_status := ACTIVE;
       compute_status := ACTIVE |} in
  set_self {| config := config c; is_connected := is_connected c;
              metrics_history := metrics_history c ++ [metrics] |} ;;;
  ret metrics.

(** [stream_data(data)]: the guard, then the two clock readings around
    the simulated transfer; [elapsed] is computed and not used. *)
Definition stream_data (data : bytes) : M bytes :=
  c <- get_self ;;
  if negb (is_connected c) then raise (RuntimeError "FPGA not connected")
  else
    start_time <- read_time ;;
    stop_time <- read_time ;;
    let elapsed := (stop_time - start_time) * 1000000 in
    ret data.

(** [get_statistics]: statistics over the last 100 samples of the
    history; the empty dictionary when there is none. *)
Definition get_statistics : M dict :=
  c <- get_self ;;
  match metrics_history c with
  | [] => ret []
  | _ :: _ =>
    let latencies :=
      map latency_us (builtins.last_items 100 (metrics_history c)) in
    let jitters :=
      map jitter_us (builtins.last_items 100 (metrics_history c)) in
    avg <- lift (builtins.truediv (builtins.sum latencies)
                   (inject_Z (builtins.len latencies))) ;;
    max_latency <- lift (builtins.max latencies) ;;
    min_latency <- lift (builtins.min latencies) ;;
    p99 <- lift (builtins.rank_item (99 # 100) latencies) ;;
    max_jitter <- lift (builtins.max jitters) ;;
    avg' <- lift (builtins.truediv (builtins.sum latencies)
                    (inject_Z (builtins.len latencies))) ;;
    speedup <- lift (builtins.truediv 150 avg') ;;
    ret [("avg_latency_us", avg); ("max_latency_us", max_latency);
         ("min_latency_us", min_latency); ("p99_latency_us", p99);
         ("max_jitter_us", max_jitter); ("speedup_vs_cpu", speedup)]%string
  end.

(** [n] calls of [read_metrics] in a row, as in the loop of [main]; the
    samples returned, in the order of the calls. *)
Fixpoint read_metrics_n (n : nat) : M (list PerformanceMetrics) :=
  match n with
  | O => ret []
  | S n' =>
    s <- read_metrics ;;
    rest <- read_metrics_n n' ;;
    ret (s :: rest)
  end.

(** ** [performance_profiler.py]: the latency benchmark *)

Section Profiler.

(** The square root used by [statistics.stdev]. *)
Variable sqrt : Q -> Q.

(** [b"x" * 1024]: the 1KB test payload. *)
Definition test_data : bytes := repeat x78 1024.

(** The loop of [run_latency_test]: [n] iterations are left to run and
    [latencies] holds the measurements made so far. *)
Fixpoint latency_loop (n : nat) (latencies : list Q) : M (list Q) :=
  match n with
  | O => ret latencies
  | S n' =>
    start <- read_perf_counter ;;
    stream_data test_data ;;;
    stop <- read_perf_counter ;;
    let elapsed := (stop - start) * 1000000 in
    latency_loop n' (latencies ++ [elapsed])
  end.

(** The [results] dictionary of [run_latency_test]; its entries are
    evaluated in the order they are written. *)
Definition latency_results (latencies : list Q) : result dict :=
  rbind (statistics.mean latencies) (fun mean =>
  rbind (statistics.median latencies) (fun median =>
  rbind (statistics.stdev sqrt latencies) (fun stdev =>
  rbind (builtins.min latencies) (fun min_latency =>
  rbind (builtins.max latencies) (fun max_latency =>
  rbind (builtins.rank_item (95 # 100) latencies) (fun p95 =>
  rbind (builtins.rank_item (99 # 100) latencies) (fun p99 =>
  Ok [("mean", mean); ("median", median); ("stdev", stdev);
      ("min", min_latency); ("max", max_latency);
      ("p95", p95); ("p99", p99)]%string))))))).

(** [run_latency_test(iterations)]; [range] of a negative number is
    empty. *)
Definition run_latency_test (iterations : Z) : M dict :=
  latencies <- latency_loop (Z.to_nat iterations) [] ;;
  lift (latency_results latencies).

End Profiler.

(** ** Machines for examples *)

(** A clock that advances by one at each reading. *)
Definition ticking : source :=
  {| feed := fun n => inject_Z (Z.of_nat n); pos := 0 |}.

(** A generator whose every draw is [1/2]. *)
Definition halves : source := {| feed := fun _ => 1 # 2; pos := 0 |}.

(** A generator whose every draw is [u]. *)
Definition constant_draw (u : Q) : source := {| feed := fun _ => u; pos := 0 |}.

Definition machine_of (c : FPGAController) (rng : source) : Machine :=
  {| self := c; time_time := ticking; perf_counter := ticking;
     random := rng |}.

(** A controller just created, and the same after [connect]. *)
Definition fresh : Machine := machine_of FPGAController_init halves.

Definition connected : Machine := snd (connect fresh).

(** The draws of a generator all lie in the interval [0, 1), as those of
    [random.random()] do. *)
Definition unit_draws (s : source) : Prop :=
  forall i, 0 <= feed s i /\ feed s i < 1.

(** A session as in [main]: connect, set six cores, read one sample. *)
Definition after_one_sample : Machine :=
  snd (read_metrics
         (snd (update_config [("active_cores"%string, 6%Z)] connected))).

(** A session whose only sample has latency zero: with thirteen cores the
    base latency is [50 + (8 - 13) * 10 = 0], and a draw of [1/4] makes
    [random.uniform(-5, 15)] zero. *)
Definition stalled : Machine :=
  snd (read_metrics
         (snd (update_config [("active_cores"%string, 13%Z)]
                 (snd (connect (machine_of FPGAController_init
                                  (constant_draw (1 # 4)))))))).

(** The latencies measured by [n] iterations of the loop of
    [run_latency_test] when the performance counter is read from position
    [p] on: each iteration reads it twice. *)
Fixpoint elapsed_times (f : nat -> Q) (p n : nat) : list Q :=
  match n with
  | O => []
  | S n' => (f (S p) - f p) * 1000000 :: elapsed_times f (S (S p)) n'
  end.

(** The latencies [get_statistics] works on. *)
Definition recent_latencies (m : Machine) : list Q :=
  map latency_us (builtins.last_items 100 (metrics_history (self m))).

(** The jitters [get_statistics] works on. *)
Definition recent_jitters (m : Machine) : list Q :=
  map jitter_us (builtins.last_items 100 (metrics_history (self m))).

(** ** What the specification says, for comparison with the code *)

Definition clamp (lo hi x : Z) : Z := Z.max lo (Z.min hi x).

(** The nearest-rank percentile in the words of the specification: sort
    ascending, take the index [floor(p/100 * length)] clamped to
    [0, length - 1]. *)
Definition spec_percentile (p : Q) (l : list Q) : Q :=
  nth (Z.to_nat (clamp 0 (builtins.len l - 1)
                   (Qfloor (p / 100 * inject_Z (builtins.len l)))))
      (builtins.sorted l) 0.

(** [getattr(cfg, key)] for the four fields. *)
Definition getattr (cfg : FPGAConfig) (key : string) : option Z :=
  if String.eqb key "window_size" then Some (window_size cfg)
  else if String.eqb key "active_cores" then Some (active_cores cfg)
  else if String.eqb key "data_rate" then Some (data_rate cfg)
  else if String.eqb key "filter_threshold" then Some (filter_threshold cfg)
  else None.


(** ** [performance_profiler.py]: the jitter and throughput tests *)

(** The loop shared by [run_jitter_test] and [run_throughput_test]:
    [while time.time() - start_time < duration_seconds], read the metrics
    and append the attribute [field] of the sample ([latency_us] in the
    first test, [throughput_mbps] in the second).  How often the loop runs
    depends on the clock alone, so the model takes [fuel], a bound on the
    number of tests of the condition, and returns [None] when it is used
    up. *)
Fixpoint sampling_loop (field : PerformanceMetrics -> Q) (fuel : nat)
    (start_time duration : Q) (values : list Q) : M (option (list Q)) :=
  match fuel with
  | O => ret None
  | S fuel' =>
    now <- read_time ;;
    if builtins.Qltb (now - start_time) duration then
      metrics <- read_metrics ;;
      sampling_loop field fuel' start_time duration
        (values ++ [field metrics])
    else ret (Some values)
  end.

(** The jitter values of [run_jitter_test]: for [i] in
    [range(1, len(latencies))], [abs(latencies[i] - latencies[i-1])]. *)
Definition jitter_values (latencies : list Q) : list Q :=
  map (fun i => Qabs (nth i latencies 0 - nth (i - 1) latencies 0))
      (seq 1 (List.length latencies - 1)).

(** The [results] dictionary of [run_throughput_test]. *)
Definition throughput_results (throughputs : list Q) : result dict :=
  rbind (statistics.mean throughputs) (fun mean =>
  rbind (builtins.min throughputs) (fun min_throughput =>
  rbind (builtins.max throughputs) (fun max_throughput =>
  Ok [("mean_throughput", mean); ("min_throughput", min_throughput);
      ("max_throughput", max_throughput)]%string))).

(** [run_throughput_test(duration_seconds)]. *)
Definition run_throughput_test (fuel : nat) (duration_seconds : Z)
  : M (option dict) :=
  start_time <- read_time ;;
  r <- sampling_loop throughput_mbps fuel start_time
         (inject_Z duration_seconds) [] ;;
  match r with
  | None => ret None
  | Some throughputs =>
    results <- lift (throughput_results throughputs) ;;
    ret (Some results)
  end.

Section Validation.

(** The square root used by [statistics.stdev]. *)
Variable sqrt : Q -> Q.

(** The [results] dictionary of [run_jitter_test]. *)
Definition jitter_results (latencies : list Q) : result dict :=
  let jitter_values := jitter_values latencies in
  rbind (statistics.mean jitter_values) (fun mean =>
  rbind (builtins.max jitter_values) (fun max_jitter =>
  rbind (statistics.stdev sqrt jitter_values) (fun stdev =>
  Ok [("mean_jitter", mean); ("max_jitter", max_jitter);
      ("stdev_jitter", stdev)]%string))).

(** [run_jitter_test(duration_seconds)]. *)
Definition run_jitter_test (fuel : nat) (duration_seconds : Z)
  : M (option dict) :=
  start_time <- read_time ;;
  r <- sampling_loop latency_us fuel start_time
         (inject_Z duration_seconds) [] ;;
  match r with
  | None => ret None
  | Some latencies =>
    results <- lift (jitter_results latencies) ;;
    ret (Some results)
  end.

(** [run_full_validation]: the three tests in the order latency, jitter,
    throughput; the dictionary of their results. *)
Definition run_full_validation (fuel : nat)
  : M (option (list (string * dict))) :=
  latency <- run_latency_test sqrt 1000 ;;
  jitter <- run_jitter_test fuel 30 ;;
  match jitter with
  | None => ret None
  | Some jitter =>
    throughput <- run_throughput_test fuel 30 ;;
    match throughput with
    | None => ret None
    | Some throughput =>
      ret (Some [("latency", latency); ("jitter", jitter);
                 ("throughput", throughput)]%string)
    end
  end.

(** [main] of [performance_profiler.py]: a new controller, connected and
    configured with eight cores, then the full validation. *)
Definition profiler_main (fuel : nat) : M (option (list (string * dict))) :=
  set_self FPGAController_init ;;;
  connect ;;;
  update_config [("active_cores", 8%Z); ("window_size", 2048%Z);
                 ("data_rate", 2000%Z)]%string ;;;
  results <- run_full_validation fuel ;;
  disconnect ;;;
  ret results.

End Validation.

(** [main] of [fpga_controller.py]: a new controller, connected and
    configured with six cores; ten samples, their statistics, and the
    disconnection. *)
Definition controller_main : M unit :=
  set_self FPGAController_init ;;;
  connect ;;;
  update_config [("active_cores", 6%Z); ("window_size", 2048%Z);
                 ("data_rate", 1500%Z)]%string ;;;
  read_metrics_n 10 ;;;
  get_statistics ;;;
  disconnect.

(** ** Predicates used in the statements *)

(** The sample lies within the bounds that [read_metrics] keeps for a
    configuration with [cores] active cores. *)
Definition within_bounds (cores : Z) (s : PerformanceMetrics) : Prop :=
  let base := inject_Z (50 + (8 - cores) * 10) in
  (base - 5 <= latency_us s /\ latency_us s <= base + 15) /\
  (inject_Z (cores * 250) - 50 <= throughput_mbps s /\
   throughput_mbps s <= inject_Z (cores * 250) + 50) /\
  (0 <= jitter_us s /\ jitter_us s <= 5).

(** The numbers of active cores the exact arithmetic of the model is
    valid for.  In the source [50 + (8 - active_cores) * 10] and
    [active_cores * 250] are integers that are added to floats; within
    this range they and the bounds around them are below [2^53], so they
    are converted to floats exactly and the (monotone) rounding of the
    sums keeps the bounds.  Far outside it the sums lose the bounds, and
    an integer beyond the range of floats makes the addition raise
    [OverflowError]. *)
Definition cores_in_range (cores : Z) : Prop :=
  (- 10 ^ 12 <= cores <= 10 ^ 12)%Z.


(** The clock read from position [p] on, every other reading being a test
    of the condition of [sampling_loop]: the first [n] tests hold and the
    next one does not. *)
Fixpoint stops_after (f : nat -> Q) (p : nat) (start_time duration : Q)
    (n : nat) : bool :=
  match n with
  | O => negb (builtins.Qltb (f p - start_time) duration)
  | S n' => builtins.Qltb (f p - start_time) duration
            && stops_after f (S (S p)) start_time duration n'
  end.

(** A clock that advances by [step] at each reading. *)
Definition stepping (step : Q) : source :=
  {| feed := fun n => inject_Z (Z.of_nat n) * step; pos := 0 |}.

(** * Properties *)

(** ** The controller: connection, streaming, metrics *)

Section Controller.

Implicit Types (m : Machine) (data : bytes).

Lemma connect_run m :
  exists m', connect m = (Ok true, m') /\
             is_connected (self m') = true /\
             config (self m') = config (self m) /\
             metrics_history (self m') = metrics_history (self m).
Proof. eexists; repeat split. Qed.

(** One call of [read_metrics], whatever the connection state: the call
    returns a sample, which is appended to the history; the sample is
    computed from the configuration and the next three draws. *)
Lemma read_metrics_run m :
  let cores := active_cores (config (self m)) in
  let draw i := feed (random m) (i + pos (random m)) in
  exists s m',
    read_metrics m = (Ok s, m') /\
    metrics_history (self m') = metrics_history (self m) ++ [s] /\
    config (self m') = config (self m) /\
    is_connected (self m') = is_connected (self m) /\
    feed (random m') = feed (random m) /\
    latency_us s =
      inject_Z (50 + (8 - cores) * 10) + uniform (-5) 15 (draw 0%nat) /\
    throughput_mbps s =
      inject_Z (cores * 250) + uniform (-50) 50 (draw 1%nat) /\
    jitter_us s = uniform 0 5 (draw 2%nat) /\
    pcie_status s = ACTIVE /\ dma_status s = ACTIVE /\
    compute_status s = ACTIVE.
Proof.
  destruct m as [c [tf tp] pc [rf rp]].
  do 2 eexists; cbn; repeat split; reflexivity.
Qed.

(** The guard of [stream_data]: without a connection the call raises and
    nothing changes. *)
Lemma stream_data_disconnected m data :
  is_connected (self m) = false ->
  stream_data data m = (Raise (RuntimeError "FPGA not connected"), m).
Proof.
  intros H. unfold stream_data, bind, get_self. rewrite H. reflexivity.
Qed.

Lemma stream_data_run m data :
  is_connected (self m) = true ->
  exists m', stream_data data m = (Ok data, m') /\
             self m' = self m /\
             perf_counter m' = perf_counter m /\
             random m' = random m.
Proof.
  intros H. destruct m as [c [tf tp] pc rnd]; cbn in H.
  unfold stream_data, bind, get_self; cbn. rewrite H; cbn.
  eexists; repeat split.
Qed.

(** C1 (the half the code does not honour).  [read_metrics] has no
    connection guard: on a controller that was never connected, with any
    clocks and any random generator, it returns a sample and appends it
    to the history, where [stream_data] raises. *)
Theorem read_metrics_on_disconnected_controller :
  forall clock counter rng : source,
    let m := {| self := FPGAController_init; time_time := clock;
                perf_counter := counter; random := rng |} in
    is_connected (self m) = false /\
    exists s m',
      read_metrics m = (Ok s, m') /\
      metrics_history (self m') = [s] /\
      is_connected (self m') = false.
Proof.
  intros clock counter rng m. split; [reflexivity|].
  destruct (read_metrics_run m) as (s & m' & Hrun & Hh & _ & Hc & _).
  exists s, m'. repeat split; assumption.
Qed.

(** C2, as amended.  On a connected controller [stream_data] returns a
    payload of the size of its input and appends no sample: the history
    is the one before the call. *)
Theorem stream_data_connected m data :
  is_connected (self m) = true ->
  exists out m',
    stream_data data m = (Ok out, m') /\
    List.length out = List.length data /\
    metrics_history (self m') = metrics_history (self m).
Proof.
  intros H. destruct (stream_data_run m data H) as (m' & Hrun & Hs & _).
  exists data, m'. rewrite Hs. repeat split; assumption.
Qed.

Lemma stream_data_connected_witness :
  is_connected (self connected) = true /\
  exists out m',
    stream_data [x78; x79] connected = (Ok out, m') /\
    List.length out = 2%nat /\
    metrics_history (self m') = metrics_history (self connected).
Proof.
  split; [reflexivity | apply (stream_data_connected connected [x78; x79])].
  reflexivity.
Defined.

(** C2 as stated fails: after [stream_data] on a connected controller
    with an empty history, the history is still empty, not one sample
    longer. *)
Lemma stream_data_appends_no_sample :
  ~ (exists out m',
       stream_data [x78] connected = (Ok out, m') /\
       List.length out = 1%nat /\
       List.length (metrics_history (self m')) =
         S (List.length (metrics_history (self connected)))).
Proof.
  intros (out & m' & Hrun & _ & Hlen).
  destruct (stream_data_run connected [x78] eq_refl) as (m2 & Hrun2 & Hs & _).
  rewrite Hrun2 in Hrun. injection Hrun as _ <-.
  rewrite Hs in Hlen. cbn in Hlen. discriminate.
Qed.

(** C9.  On a connected controller the bytes returned by [stream_data]
    are the bytes it was given. *)
Theorem stream_data_returns_input m data :
  is_connected (self m) = true ->
  fst (stream_data data m) = Ok data.
Proof.
  intros H. destruct (stream_data_run m data H) as (m' & Hrun & _).
  rewrite Hrun. reflexivity.
Qed.

Lemma stream_data_returns_input_witness :
  is_connected (self connected) = true /\
  fst (stream_data test_data connected) = Ok test_data.
Proof.
  split; [reflexivity | apply (stream_data_returns_input connected test_data)].
  reflexivity.
Defined.

(** C3, as amended.  [disconnect] always succeeds and leaves the
    controller disconnected; the history and the configuration are the
    ones before the call. *)
Theorem disconnect_keeps_history_and_config m :
  exists m',
    disconnect m = (Ok tt, m') /\
    is_connected (self m') = false /\
    metrics_history (self m') = metrics_history (self m) /\
    config (self m') = config (self m).
Proof. eexists; repeat split. Qed.

(** C3 as stated fails: after [disconnect] at the end of a session that
    set six cores and read one sample, the history still holds the
    sample and the configuration still has six cores. *)
Lemma disconnect_does_not_reset :
  let m' := snd (disconnect after_one_sample) in
  ~ (is_connected (self m') = false /\
     List.length (metrics_history (self m')) = 0%nat /\
     config (self m') = FPGAConfig_default).
Proof. intros m' (_ & Hlen & _). vm_compute in Hlen. discriminate. Qed.

(** C10.  For a configuration whose number of active cores is within
    the range of exact arithmetic, and draws of the random generator in
    [0, 1), the sample made by [read_metrics] has its latency within
    [base - 5, base + 15] for [base = 50 + (8 - active_cores) * 10], its
    throughput within 50 of [active_cores * 250], its jitter within
    [0, 5], and its three statuses active. *)
Theorem read_metrics_sample_bounds m :
  cores_in_range (active_cores (config (self m))) ->
  unit_draws (random m) ->
  exists s m',
    read_metrics m = (Ok s, m') /\
    let cores := active_cores (config (self m)) in
    let base := inject_Z (50 + (8 - cores) * 10) in
    (base - 5 <= latency_us s /\ latency_us s <= base + 15) /\
    (inject_Z (cores * 250) - 50 <= throughput_mbps s /\
     throughput_mbps s <= inject_Z (cores * 250) + 50) /\
    (0 <= jitter_us s /\ jitter_us s <= 5) /\
    pcie_status s = ACTIVE /\ dma_status s = ACTIVE /\
    compute_status s = ACTIVE.
Proof.
  intros _ Hu.
  destruct (read_metrics_run m)
    as (s & m' & Hrun & _ & _ & _ & _ & Hl & Ht & Hj & Hp & Hd & Hc).
  exists s, m'. split; [exact Hrun|]. cbv zeta.
  rewrite Hl, Ht, Hj. unfold uniform.
  pose proof (Hu (0 + pos (random m))%nat) as [H0 H0'].
  pose proof (Hu (1 + pos (random m))%nat) as [H1 H1'].
  pose proof (Hu (2 + pos (random m))%nat) as [H2 H2'].
  set (b := inject_Z (50 + _)). set (t := inject_Z (_ * 250)).
  repeat split; try assumption; lra.
Qed.

Lemma read_metrics_sample_bounds_witness :
  cores_in_range (active_cores (config (self connected))) /\
  unit_draws (random connected) /\
  exists s m',
    read_metrics connected = (Ok s, m') /\
    (inject_Z 90 - 5 <= latency_us s /\ latency_us s <= inject_Z 90 + 15) /\
    (inject_Z 1000 - 50 <= throughput_mbps s /\
     throughput_mbps s <= inject_Z 1000 + 50) /\
    (0 <= jitter_us s /\ jitter_us s <= 5) /\
    pcie_status s = ACTIVE /\ dma_status s = ACTIVE /\
    compute_status s = ACTIVE.
Proof.
  assert (Hc : cores_in_range (active_cores (config (self connected))))
    by (unfold cores_in_range; cbn; lia).
  assert (H : unit_draws (random connected))
    by (intros i; split; vm_compute; [discriminate | reflexivity]).
  split; [exact Hc|].
  split; [exact H | apply (read_metrics_sample_bounds connected Hc H)].
Defined.

End Controller.

(** ** The metrics history *)

Section History.

Implicit Types (m : Machine) (h : list PerformanceMetrics).

Lemma last_items_length {A} (k : nat) (l : list A) :
  List.length (builtins.last_items k l) = Nat.min k (List.length l).
Proof. unfold builtins.last_items. rewrite length_skipn. lia. Qed.

(** The last [k] items of a list that ends with at least [k] new
    items are the last [k] of the new ones. *)
Lemma last_items_app {A} (k : nat) (old new : list A) :
  (k <= List.length new)%nat ->
  builtins.last_items k (old ++ new) = skipn (List.length new - k) new.
Proof.
  intros Hk. unfold builtins.last_items.
  rewrite length_app, skipn_app.
  rewrite skipn_all2 by lia. cbn [app].
  f_equal. lia.
Qed.

(** [n] calls of [read_metrics] all succeed and extend the history by
    the [n] samples they return, in order; nothing is removed. *)
Lemma read_metrics_n_run (n : nat) :
  forall m, exists samples m',
    read_metrics_n n m = (Ok samples, m') /\
    List.length samples = n /\
    metrics_history (self m') = metrics_history (self m) ++ samples /\
    config (self m') = config (self m) /\
    is_connected (self m') = is_connected (self m).
Proof.
  induction n as [|n IH]; intros m.
  - exists [], m. cbn. rewrite app_nil_r. repeat split.
  - destruct (read_metrics_run m)
      as (s & m1 & Hrun & Hh & Hc & Hi & _).
    destruct (IH m1) as (rest & m2 & Hrest & Hlen & Hh2 & Hc2 & Hi2).
    exists (s :: rest), m2. cbn [read_metrics_n]. unfold bind at 1.
    rewrite Hrun. unfold bind at 1. rewrite Hrest. cbn.
    rewrite Hh2, Hh, Hc2, Hc, Hi2, Hi, <- app_assoc, Hlen.
    repeat split.
Qed.

(** C4 as stated fails: after 101 calls of [read_metrics] on a new
    controller the history holds 101 samples, more than 100. *)
Lemma history_exceeds_100 :
  ~ (List.length (metrics_history (self (snd (read_metrics_n 101 fresh))))
     <= 100)%nat.
Proof. vm_compute. lia. Qed.

End History.

(** ** The configuration *)

Section Configuration.

Implicit Types (cfg : FPGAConfig) (k : string) (v : Z).

Local Open Scope string_scope.

Lemma hasattr_cases k :
  hasattr k = true ->
  k = "window_size" \/ k = "active_cores" \/ k = "data_rate" \/
  k = "filter_threshold".
Proof.
  unfold hasattr; cbn [existsb].
  destruct (String.eqb_spec k "window_size"); [tauto|].
  destruct (String.eqb_spec k "active_cores"); [tauto|].
  destruct (String.eqb_spec k "data_rate"); [tauto|].
  destruct (String.eqb_spec k "filter_threshold"); [tauto|].
  discriminate.
Qed.

Lemma getattr_setattr_same cfg k v :
  hasattr k = true -> getattr (setattr cfg k v) k = Some v.
Proof.
  intros H. destruct (hasattr_cases k H) as [-> | [-> | [-> | ->]]];
    reflexivity.
Qed.

Lemma getattr_setattr_other cfg k k' v :
  k <> k' -> getattr (setattr cfg k' v) k = getattr cfg k.
Proof.
  intros Hne. unfold setattr, getattr.
  repeat match goal with
         | |- context [String.eqb ?a ?b] => destruct (String.eqb_spec a b)
         end;
    subst; try reflexivity; congruence.
Qed.

Lemma getattr_update_item_same cfg k v :
  hasattr k = true -> getattr (update_item cfg (k, v)) k = Some v.
Proof.
  intros H. unfold update_item; cbn [fst snd]. rewrite H.
  now apply getattr_setattr_same.
Qed.

Lemma getattr_update_item_other cfg k kv :
  k <> fst kv -> getattr (update_item cfg kv) k = getattr cfg k.
Proof.
  intros H. unfold update_item. destruct (hasattr (fst kv)); [|reflexivity].
  now apply getattr_setattr_other.
Qed.

(** A field that is not named in [kwargs] keeps its value. *)
Lemma fold_update_item_absent kwargs :
  forall cfg k,
    ~ In k (map fst kwargs) ->
    getattr (fold_left update_item kwargs cfg) k = getattr cfg k.
Proof.
  induction kwargs as [|kv kwargs IH]; intros cfg k Hk; [reflexivity|].
  cbn [fold_left]. rewrite IH by (cbn in Hk; tauto).
  apply getattr_update_item_other. cbn in Hk. intros ->. tauto.
Qed.

(** A field named in [kwargs] gets the value given for it. *)
Lemma fold_update_item_present kwargs :
  forall cfg k v,
    NoDup (map fst kwargs) -> In (k, v) kwargs -> hasattr k = true ->
    getattr (fold_left update_item kwargs cfg) k = Some v.
Proof.
  induction kwargs as [|kv kwargs IH]; intros cfg k v Hnd Hin Hk;
    [contradiction|].
  cbn [map] in Hnd. inversion Hnd as [|? ? Hfresh Hnd']; subst.
  cbn [fold_left]. destruct Hin as [-> | Hin].
  - rewrite fold_update_item_absent by exact Hfresh.
    now apply getattr_update_item_same.
  - now apply IH.
Qed.






End Configuration.

(** ** Builtins: sorting, indexing, truncation *)

Section Builtins.

Implicit Types (l : list Q) (x y : Q).

Lemma Qltb_true x y : builtins.Qltb x y = true <-> x < y.
Proof.
  unfold builtins.Qltb. rewrite negb_true_iff, <- not_true_iff_false.
  rewrite Qle_bool_iff. split; [apply Qnot_le_lt | apply Qlt_not_le].
Qed.

Lemma Qltb_false x y : builtins.Qltb x y = false <-> y <= x.
Proof.
  unfold builtins.Qltb. rewrite negb_false_iff. apply Qle_bool_iff.
Qed.

Lemma insert_perm x l : Permutation (x :: l) (builtins.insert x l).
Proof.
  induction l as [|y l IH]; cbn; [reflexivity|].
  destruct (builtins.Qltb y x); [|reflexivity].
  rewrite perm_swap. now constructor.
Qed.

(** [sorted] rearranges its argument... *)
Lemma sorted_perm l : Permutation l (builtins.sorted l).
Proof.
  induction l as [|x l IH]; cbn; [constructor|].
  rewrite <- insert_perm. now constructor.
Qed.

Lemma insert_sorted x l :
  Sorted Qle l -> Sorted Qle (builtins.insert x l).
Proof.
  induction 1 as [|y l Hs IH Hhd]; cbn; [repeat constructor|].
  destruct (builtins.Qltb y x) eqn:E.
  - apply Qltb_true in E. constructor; [exact IH|].
    destruct l as [|z l]; cbn.
    + constructor. now apply Qlt_le_weak.
    + destruct (builtins.Qltb z x); constructor.
      * now inversion Hhd.
      * now apply Qlt_le_weak.
  - apply Qltb_false in E. repeat constructor; assumption.
Qed.

(** ... in ascending order. *)
Lemma sorted_ascending l : Sorted Qle (builtins.sorted l).
Proof.
  induction l as [|x l IH]; cbn; [constructor | now apply insert_sorted].
Qed.

Lemma sorted_len l : builtins.len (builtins.sorted l) = builtins.len l.
Proof.
  unfold builtins.len. f_equal. symmetry.
  apply Permutation_length, sorted_perm.
Qed.

Lemma len_nonempty {A} (l : list A) : l <> [] -> (1 <= builtins.len l)%Z.
Proof. destruct l; [congruence|]. unfold builtins.len. cbn. lia. Qed.

(** An index within the list selects the item at that position. *)
Lemma getitem_in_range l (i : Z) :
  (0 <= i < builtins.len l)%Z ->
  builtins.getitem l i = Ok (nth (Z.to_nat i) l 0).
Proof.
  intros [H0 H1]. unfold builtins.getitem.
  apply Z.leb_le in H0. apply Z.ltb_lt in H1. now rewrite H0, H1.
Qed.

(** On a float that is not negative, [int] is the floor. *)
Lemma int_floor x : 0 <= x -> builtins.int x = Qfloor x.
Proof.
  destruct x as [n d]. unfold Qle, builtins.int; cbn. intros H.
  apply Z.quot_div_nonneg; lia.
Qed.

Lemma inject_Z_ge_1 (n : Z) : (1 <= n)%Z -> 1 <= inject_Z n.
Proof. intros H. unfold Qle; cbn. lia. Qed.

Lemma percent_fraction (p : Q) :
  0 < p -> p < 100 -> 0 < p / 100 /\ p / 100 < 1.
Proof.
  intros Hp0 Hp1. split.
  - apply Qlt_shift_div_l; lra.
  - apply Qlt_shift_div_r; lra.
Qed.

(** For [p] strictly between 0 and 100 the nearest-rank index of a list
    that is not empty lies within the list. *)
Lemma rank_index_range (p : Q) (n : Z) :
  0 < p -> p < 100 -> (1 <= n)%Z ->
  (0 <= Qfloor (p / 100 * inject_Z n) <= n - 1)%Z.
Proof.
  intros Hp0 Hp1 Hn.
  pose proof (inject_Z_ge_1 n Hn) as HN.
  set (N := inject_Z n) in *.
  pose proof (percent_fraction p Hp0 Hp1) as [Hf0 Hf1].
  set (q := p / 100) in *.
  assert (Hq0 : 0 <= q * N) by nra.
  assert (Hq1 : q * N < N) by nra.
  split.
  - change 0%Z with (Qfloor 0). now apply Qfloor_resp_le.
  - assert (H : inject_Z (Qfloor (q * N)) < N).
    { eapply Qle_lt_trans; [apply Qfloor_le | exact Hq1]. }
    unfold N in *. rewrite <- Zlt_Qlt in H. lia.
Qed.

(** The percentile expression of the code is the nearest-rank
    percentile of the specification. *)
Lemma rank_item_spec (p : Q) l :
  l <> [] -> 0 < p -> p < 100 ->
  builtins.rank_item (p / 100) l = Ok (spec_percentile p l).
Proof.
  intros Hl Hp0 Hp1. apply len_nonempty in Hl.
  pose proof (rank_index_range p (builtins.len l) Hp0 Hp1 Hl) as Hr.
  unfold builtins.rank_item, spec_percentile.
  assert (Hi : builtins.int (inject_Z (builtins.len l) * (p / 100))
               = Qfloor (p / 100 * inject_Z (builtins.len l))).
  { rewrite int_floor.
    - apply Qfloor_comp. apply Qmult_comm.
    - pose proof (inject_Z_ge_1 _ Hl).
      pose proof (percent_fraction p Hp0 Hp1) as [Hf0 Hf1].
      set (q := p / 100) in *. nra. }
  rewrite Hi, getitem_in_range by (rewrite sorted_len; lia).
  unfold clamp. do 3 f_equal. lia.
Qed.

Lemma truediv_zero (a b : Q) :
  b == 0 -> builtins.truediv a b = Raise ZeroDivisionError.
Proof.
  intros H. unfold builtins.truediv.
  apply Qeq_bool_iff in H. now rewrite H.
Qed.

Lemma truediv_nonzero (a b : Q) :
  ~ b == 0 -> builtins.truediv a b = Ok (a / b).
Proof.
  intros H. unfold builtins.truediv.
  destruct (Qeq_bool b 0) eqn:E; [|reflexivity].
  apply Qeq_bool_iff in E. contradiction.
Qed.

Lemma inject_len_nonzero {A} (l : list A) :
  l <> [] -> ~ inject_Z (builtins.len l) == 0.
Proof.
  intros Hl H. apply len_nonempty in Hl.
  apply inject_Z_ge_1 in Hl. rewrite H in Hl. now apply Hl.
Qed.

Lemma max_nonempty l : l <> [] -> exists v, builtins.max l = Ok v.
Proof. destruct l; [congruence | eexists; reflexivity]. Qed.

Lemma min_nonempty l : l <> [] -> exists v, builtins.min l = Ok v.
Proof. destruct l; [congruence | eexists; reflexivity]. Qed.

End Builtins.

(** ** Statistics *)

Section Statistics.

Variable sqrt : Q -> Q.

Implicit Types (l : list Q) (m : Machine).

Lemma mean_nonempty l :
  l <> [] ->
  statistics.mean l = Ok (builtins.sum l / inject_Z (builtins.len l)).
Proof.
  intros Hl. apply len_nonempty in Hl. unfold statistics.mean.
  destruct (Z.ltb_spec (builtins.len l) 1); [lia | reflexivity].
Qed.

Lemma median_nonempty l :
  l <> [] -> exists v, statistics.median l = Ok v.
Proof.
  intros Hl. apply len_nonempty in Hl. unfold statistics.median.
  cbv zeta. rewrite sorted_len.
  destruct (Z.eqb_spec (builtins.len l) 0); [lia|].
  destruct (Z.eqb_spec (builtins.len l mod 2) 1).
  - rewrite getitem_in_range
      by (rewrite sorted_len; Z.div_mod_to_equations; lia).
    eexists; reflexivity.
  - rewrite !getitem_in_range
      by (rewrite sorted_len; Z.div_mod_to_equations; lia).
    eexists; reflexivity.
Qed.

Lemma stdev_two_or_more l :
  (2 <= builtins.len l)%Z -> exists v, statistics.stdev sqrt l = Ok v.
Proof.
  intros Hl. unfold statistics.stdev, statistics.variance. cbv zeta.
  destruct (Z.ltb_spec (builtins.len l) 2); [lia|].
  eexists; reflexivity.
Qed.

(** With two latencies or more every entry of the results of the
    latency test is computed, and the two percentiles are the
    nearest-rank ones. *)
Lemma latency_results_two_or_more l :
  (2 <= List.length l)%nat ->
  exists d,
    latency_results sqrt l = Ok d /\
    dict_get d "p95" = Some (spec_percentile 95 l) /\
    dict_get d "p99" = Some (spec_percentile 99 l).
Proof.
  intros Hlen.
  assert (Hne : l <> []) by (destruct l; [cbn in Hlen; lia | congruence]).
  assert (Hl2 : (2 <= builtins.len l)%Z) by (unfold builtins.len; lia).
  unfold latency_results.
  rewrite (mean_nonempty l Hne).
  destruct (median_nonempty l Hne) as [md ->].
  destruct (stdev_two_or_more l Hl2) as [sd ->].
  destruct (min_nonempty l Hne) as [mn ->].
  destruct (max_nonempty l Hne) as [mx ->].
  change (95 # 100) with (95 / 100). change (99 # 100) with (99 / 100).
  rewrite !rank_item_spec by (assumption || reflexivity).
  eexists; repeat split.
Qed.

Lemma read_perf_counter_run m :
  exists m',
    read_perf_counter m =
      (Ok (feed (perf_counter m) (pos (perf_counter m))), m') /\
    self m' = self m /\
    perf_counter m' = {| feed := feed (perf_counter m);
                         pos := S (pos (perf_counter m)) |}.
Proof. destruct m as [c tt [pf pp] rnd]. eexists; repeat split. Qed.

(** The loop of the latency test on a connected controller: every
    iteration succeeds and adds the time elapsed between its two
    readings of the performance counter. *)
Lemma latency_loop_run (n : nat) :
  forall m acc,
    is_connected (self m) = true ->
    exists m',
      latency_loop n acc m =
        (Ok (acc ++ elapsed_times (feed (perf_counter m))
                      (pos (perf_counter m)) n), m') /\
      self m' = self m.
Proof.
  induction n as [|n IH]; intros m acc Hc.
  - exists m. cbn. rewrite app_nil_r. split; reflexivity.
  - destruct (read_perf_counter_run m) as (m1 & E1 & S1 & P1).
    assert (Hc1 : is_connected (self m1) = true) by (now rewrite S1).
    destruct (stream_data_run m1 test_data Hc1) as (m2 & E2 & S2 & P2 & _).
    destruct (read_perf_counter_run m2) as (m3 & E3 & S3 & P3).
    assert (Hc3 : is_connected (self m3) = true)
      by (now rewrite S3, S2).
    destruct (IH m3 (acc ++ [(feed (perf_counter m2) (pos (perf_counter m2))
                              - feed (perf_counter m) (pos (perf_counter m)))
                             * 1000000]) Hc3) as (m4 & E4 & S4).
    exists m4. cbn [latency_loop]. unfold bind at 1. rewrite E1.
    unfold bind at 1. rewrite E2. unfold bind at 1. rewrite E3.
    rewrite E4. rewrite P3, P2, P1. cbn [feed pos elapsed_times].
    rewrite <- app_assoc. cbn [app].
    split; [reflexivity | now rewrite S4, S3, S2, S1].
Qed.

Lemma elapsed_times_length f p n : List.length (elapsed_times f p n) = n.
Proof. revert p; induction n; intros p; cbn; [|rewrite IHn]; reflexivity. Qed.

Lemma run_latency_test_run (iterations : Z) m :
  is_connected (self m) = true ->
  exists m',
    run_latency_test sqrt iterations m =
      (latency_results sqrt
         (elapsed_times (feed (perf_counter m)) (pos (perf_counter m))
            (Z.to_nat iterations)), m') /\
    self m' = self m.
Proof.
  intros Hc.
  destruct (latency_loop_run (Z.to_nat iterations) m [] Hc) as (m' & E & S').
  exists m'. unfold run_latency_test, bind. rewrite E. split; [reflexivity|].
  exact S'.
Qed.

Lemma recent_latencies_nonempty m :
  metrics_history (self m) <> [] -> recent_latencies m <> [].
Proof.
  intros Hh Hr. apply (f_equal (@List.length Q)) in Hr.
  unfold recent_latencies in Hr.
  rewrite length_map, last_items_length in Hr. cbn in Hr.
  destruct (metrics_history (self m)); [congruence | cbn in Hr; lia].
Qed.

(** [get_statistics] on a history that is not empty: it raises when the
    mean latency is zero, and otherwise reports the mean, the
    nearest-rank 99th percentile and the speedup. *)
Lemma get_statistics_run m :
  metrics_history (self m) <> [] ->
  let mean := builtins.sum (recent_latencies m)
              / inject_Z (builtins.len (recent_latencies m)) in
  (mean == 0 -> get_statistics m = (Raise ZeroDivisionError, m)) /\
  (~ mean == 0 ->
   exists d,
     get_statistics m = (Ok d, m) /\
     dict_get d "avg_latency_us" = Some mean /\
     dict_get d "p99_latency_us" =
       Some (spec_percentile 99 (recent_latencies m)) /\
     dict_get d "speedup_vs_cpu" = Some (150 / mean)).
Proof.
  intros Hh mean.
  pose proof (recent_latencies_nonempty m Hh) as Hne.
  assert (Hj : map jitter_us
                 (builtins.last_items 100 (metrics_history (self m))) <> []).
  { intros E. apply Hne. unfold recent_latencies.
    apply map_eq_nil in E. now rewrite E. }
  assert (Hrun : get_statistics m =
                 match builtins.truediv 150 mean with
                 | Ok speedup =>
                   match builtins.max (recent_latencies m),
                         builtins.min (recent_latencies m),
                         builtins.max
                           (map jitter_us
                              (builtins.last_items 100
                                 (metrics_history (self m)))) with
                   | Ok mx, Ok mn, Ok mj =>
                     (Ok [("avg_latency_us", mean); ("max_latency_us", mx);
                          ("min_latency_us", mn);
                          ("p99_latency_us",
                           spec_percentile 99 (recent_latencies m));
                          ("max_jitter_us", mj);
                          ("speedup_vs_cpu", speedup)]%string, m)
                   | _, _, _ => (Raise ValueError, m)
                   end
                 | Raise e => (Raise e, m)
                 end).
  { unfold get_statistics, bind, get_self, lift, ret.
    destruct (metrics_history (self m)) as [|s0 h] eqn:Eh; [congruence|].
    rewrite <- Eh in Hj |- *. fold (recent_latencies m).
    rewrite (truediv_nonzero _ _ (inject_len_nonzero _ Hne)). fold mean.
    destruct (max_nonempty _ Hne) as [mx ->].
    destruct (min_nonempty _ Hne) as [mn ->].
    destruct (max_nonempty _ Hj) as [mj ->].
    change (99 # 100) with (99 / 100).
    rewrite rank_item_spec by (assumption || reflexivity).
    destruct (builtins.truediv 150 mean); reflexivity. }
  split; intros Hm.
  - rewrite Hrun, (truediv_zero _ _ Hm). reflexivity.
  - rewrite Hrun, (truediv_nonzero _ _ Hm).
    destruct (max_nonempty _ Hne) as [mx ->].
    destruct (min_nonempty _ Hne) as [mn ->].
    destruct (max_nonempty _ Hj) as [mj ->].
    eexists; repeat split.
Qed.

End Statistics.

(** ** Statistics: errors, percentiles, speedup *)

Section Reports.

Implicit Types (l : list Q) (m : Machine) (sqrt : Q -> Q).

(** C6, as amended.  The functions of the statistics library raise
    [StatisticsError] on an empty sequence, and [stdev] also on a single
    value; so do the results of the latency test on no latency and on a
    single one (a test of zero iterations raises).  [get_statistics] on
    an empty history raises nothing: it returns the empty dictionary
    and changes nothing. *)
Theorem statistics_on_too_few_values :
  statistics.mean [] = Raise StatisticsError /\
  statistics.median [] = Raise StatisticsError /\
  (forall sqrt, statistics.stdev sqrt [] = Raise StatisticsError) /\
  (forall sqrt x, statistics.stdev sqrt [x] = Raise StatisticsError) /\
  (forall sqrt, latency_results sqrt [] = Raise StatisticsError) /\
  (forall sqrt x, latency_results sqrt [x] = Raise StatisticsError) /\
  (forall sqrt m,
      fst (run_latency_test sqrt 0 m) = Raise StatisticsError) /\
  (forall cfg b clock counter rng,
      let m := {| self := {| config := cfg; is_connected := b;
                             metrics_history := [] |};
                  time_time := clock; perf_counter := counter;
                  random := rng |} in
      get_statistics m = (Ok [], m)).
Proof. repeat split. Qed.

(** C6 as stated fails: [get_statistics] on the empty history of a new
    controller raises no exception. *)
Lemma get_statistics_empty_history_no_error :
  metrics_history (self fresh) = [] /\
  ~ (exists e, fst (get_statistics fresh) = Raise e).
Proof.
  split; [reflexivity|]. intros [e He]. vm_compute in He. discriminate.
Qed.

(** C7.  [sorted] gives the values in ascending order.  For a sequence
    that is not empty and [p] strictly between 0 and 100, the percentile
    expression of the code gives the item of the sorted sequence at index
    [floor(p/100 * length)] clamped to [0, length - 1], without
    interpolation.  The p95 and p99 reported by the latency test on a
    connected controller (two iterations or more) and the p99 reported
    by [get_statistics] (history not empty, mean latency not zero) are
    these percentiles of the latencies they are computed from. *)
Theorem percentiles_are_nearest_rank :
  (forall l,
      Sorted Qle (builtins.sorted l) /\ Permutation l (builtins.sorted l)) /\
  (forall p l,
      l <> [] -> 0 < p -> p < 100 ->
      builtins.rank_item (p / 100) l = Ok (spec_percentile p l)) /\
  (forall sqrt iterations m,
      is_connected (self m) = true -> (2 <= iterations)%Z ->
      let latencies :=
        elapsed_times (feed (perf_counter m)) (pos (perf_counter m))
          (Z.to_nat iterations) in
      exists d m',
        run_latency_test sqrt iterations m = (Ok d, m') /\
        dict_get d "p95" = Some (spec_percentile 95 latencies) /\
        dict_get d "p99" = Some (spec_percentile 99 latencies)) /\
  (forall m,
      metrics_history (self m) <> [] ->
      ~ builtins.sum (recent_latencies m)
        / inject_Z (builtins.len (recent_latencies m)) == 0 ->
      exists d,
        get_statistics m = (Ok d, m) /\
        dict_get d "p99_latency_us" =
          Some (spec_percentile 99 (recent_latencies m))).
Proof.
  split; [|split; [|split]].
  - intros l. split; [apply sorted_ascending | apply sorted_perm].
  - intros p l. apply rank_item_spec.
  - intros sqrt iterations m Hc Hi latencies.
    destruct (run_latency_test_run sqrt iterations m Hc) as (m' & Hrun & _).
    destruct (latency_results_two_or_more sqrt latencies)
      as (d & Hd & H95 & H99).
    { unfold latencies. rewrite elapsed_times_length. lia. }
    exists d, m'. fold latencies in Hrun. rewrite Hrun, Hd.
    repeat split; assumption.
  - intros m Hh Hm.
    destruct (get_statistics_run m Hh) as [_ Hok].
    destruct (Hok Hm) as (d & Hrun & _ & H99 & _).
    exists d. split; assumption.
Qed.

Lemma percentiles_are_nearest_rank_witness :
  builtins.rank_item (50 / 100) [3; 1; 2; 1 # 2] = Ok 2 /\
  (exists d m',
      run_latency_test (fun x => x) 3 connected = (Ok d, m') /\
      dict_get d "p95" = Some 1000000 /\
      dict_get d "p99" = Some 1000000) /\
  (exists d,
      get_statistics after_one_sample = (Ok d, after_one_sample) /\
      dict_get d "p99_latency_us" = Some (150 # 2)).
Proof.
  destruct percentiles_are_nearest_rank as (_ & Hrank & Htest & Hstat).
  split; [|split].
  - apply (Hrank 50 [3; 1; 2; 1 # 2]);
      [discriminate | reflexivity | reflexivity].
  - apply (Htest (fun x => x) 3%Z connected); [reflexivity | lia].
  - apply (Hstat after_one_sample); [discriminate|].
    intros H. vm_compute in H. discriminate.
Defined.

(** C8.  The speedup is the baseline divided by the mean latency, and
    the division raises [ZeroDivisionError] when the mean latency is
    zero.  [get_statistics], whose baseline is 150, reports
    [150 / mean] for the mean latency it reports, and raises when that
    mean is zero. *)
Theorem speedup_is_baseline_over_mean :
  (forall baseline mean : Q,
      (mean == 0 ->
       builtins.truediv baseline mean = Raise ZeroDivisionError) /\
      (~ mean == 0 ->
       builtins.truediv baseline mean = Ok (baseline / mean))) /\
  (forall m,
      metrics_history (self m) <> [] ->
      let mean := builtins.sum (recent_latencies m)
                  / inject_Z (builtins.len (recent_latencies m)) in
      (mean == 0 -> get_statistics m = (Raise ZeroDivisionError, m)) /\
      (~ mean == 0 ->
       exists d,
         get_statistics m = (Ok d, m) /\
         dict_get d "avg_latency_us" = Some mean /\
         dict_get d "speedup_vs_cpu" = Some (150 / mean))).
Proof.
  split.
  - intros baseline mean. split;
      [apply truediv_zero | apply truediv_nonzero].
  - intros m Hh mean.
    destruct (get_statistics_run m Hh) as [Hzero Hok].
    split; [exact Hzero|].
    intros Hm. destruct (Hok Hm) as (d & Hrun & Havg & _ & Hsp).
    exists d. repeat split; assumption.
Qed.

Lemma speedup_is_baseline_over_mean_witness :
  builtins.truediv 150 0 = Raise ZeroDivisionError /\
  builtins.truediv 150 75 = Ok (150 / 75) /\
  get_statistics stalled = (Raise ZeroDivisionError, stalled) /\
  (exists d,
      get_statistics after_one_sample = (Ok d, after_one_sample) /\
      dict_get d "avg_latency_us" = Some ((150 # 2) / 1) /\
      dict_get d "speedup_vs_cpu" = Some (150 / ((150 # 2) / 1))).
Proof.
  destruct speedup_is_baseline_over_mean as (Hdiv & Hstat).
  split; [|split; [|split]].
  - apply (Hdiv 150 0). reflexivity.
  - apply (Hdiv 150 75). discriminate.
  - apply (Hstat stalled); [discriminate | reflexivity].
  - apply (Hstat after_one_sample); [discriminate|].
    intros H. vm_compute in H. discriminate.
Defined.

End Reports.

(** * Further properties of the two scripts *)

(** ** Connection life cycle *)

Section Lifecycle.

Implicit Types (m : Machine) (data : bytes).

(** X1.  Whatever the state before, [stream_data] succeeds and returns
    its input right after [connect], and raises [RuntimeError] and changes
    nothing right after [disconnect]. *)
Theorem stream_data_follows_connection m data :
  fst (stream_data data (snd (connect m))) = Ok data /\
  stream_data data (snd (disconnect m)) =
    (Raise (RuntimeError "FPGA not connected"), snd (disconnect m)).
Proof.
  split.
  - destruct (stream_data_run (snd (connect m)) data eq_refl)
      as (m' & Hrun & _).
    now rewrite Hrun.
  - now apply stream_data_disconnected.
Qed.

(** X2.  [connect] always returns [True], and connecting twice is the
    same as connecting once.  On a connected controller, [disconnect]
    followed by [connect] gives back the controller as it was: the
    configuration and the history survive the reconnection. *)
Theorem reconnect_restores_controller m :
  fst (connect m) = Ok true /\
  snd (connect (snd (connect m))) = snd (connect m) /\
  (is_connected (self m) = true ->
   snd (connect (snd (disconnect m))) = m).
Proof.
  destruct m as [[cfg b h] tt pc rnd]; cbn. repeat split. now intros ->.
Qed.

Lemma reconnect_restores_controller_witness :
  is_connected (self after_one_sample) = true /\
  fst (connect after_one_sample) = Ok true /\
  snd (connect (snd (connect after_one_sample))) =
    snd (connect after_one_sample) /\
  snd (connect (snd (disconnect after_one_sample))) = after_one_sample.
Proof.
  destruct (reconnect_restores_controller after_one_sample)
    as (Hret & Htwice & Hback).
  split; [reflexivity|]. split; [exact Hret|]. split; [exact Htwice|].
  apply Hback. reflexivity.
Defined.

End Lifecycle.

(** ** More on [update_config] *)

Section ConfigurationUpdates.

Implicit Types (cfg : FPGAConfig) (k : string) (v : Z)
  (kwargs : list (string * Z)).

Local Open Scope string_scope.

(** Two configurations with the same four fields are the same. *)
Lemma config_ext cfg cfg' :
  (forall k, getattr cfg k = getattr cfg' k) -> cfg = cfg'.
Proof.
  intros H. destruct cfg as [w a d f], cfg' as [w' a' d' f'].
  pose proof (H "window_size") as Hw.
  pose proof (H "active_cores") as Ha.
  pose proof (H "data_rate") as Hd.
  pose proof (H "filter_threshold") as Hf.
  cbn in Hw, Ha, Hd, Hf. congruence.
Qed.

Lemma getattr_unknown cfg k : hasattr k = false -> getattr cfg k = None.
Proof.
  unfold hasattr, getattr; cbn [existsb].
  destruct (String.eqb k "window_size"); [discriminate|].
  destruct (String.eqb k "active_cores"); [discriminate|].
  destruct (String.eqb k "data_rate"); [discriminate|].
  destruct (String.eqb k "filter_threshold"); [discriminate|].
  reflexivity.
Qed.

Lemma in_keys kwargs k :
  In k (map fst kwargs) -> exists v, In (k, v) kwargs.
Proof.
  intros H. apply in_map_iff in H. destruct H as ([k' v] & <- & Hin).
  now exists v.
Qed.




(** X4.  Repeating a call of [update_config] changes nothing more: the
    machine after two identical calls is the machine after one. *)
Theorem update_config_idempotent kwargs (m : Machine) :
  NoDup (map fst kwargs) ->
  snd (update_config kwargs (snd (update_config kwargs m))) =
  snd (update_config kwargs m).
Proof.
  intros Hnd.
  assert (Hcfg : fold_left update_item kwargs
                   (fold_left update_item kwargs (config (self m))) =
                 fold_left update_item kwargs (config (self m))).
  { apply config_ext. intros k.
    destruct (hasattr k) eqn:Hattr; [|now rewrite !getattr_unknown].
    destruct (in_dec string_dec k (map fst kwargs)) as [Hin | Hout].
    - destruct (in_keys _ _ Hin) as [v Hv].
      now rewrite !(fold_update_item_present kwargs _ k v Hnd Hv Hattr).
    - now rewrite !fold_update_item_absent. }
  unfold update_config, bind, get_self, set_self, ret; cbn. now rewrite Hcfg.
Qed.

Lemma update_config_idempotent_witness :
  NoDup (map fst [("active_cores", 8%Z); ("colour", 3%Z)]) /\
  snd (update_config [("active_cores", 8%Z); ("colour", 3%Z)]
         (snd (update_config [("active_cores", 8%Z); ("colour", 3%Z)]
                 connected))) =
  snd (update_config [("active_cores", 8%Z); ("colour", 3%Z)] connected).
Proof.
  assert (Hnd : NoDup (map fst [("active_cores", 8%Z); ("colour", 3%Z)])).
  { cbn. repeat constructor; cbn; intuition discriminate. }
  split; [exact Hnd | apply (update_config_idempotent _ connected Hnd)].
Defined.



End ConfigurationUpdates.

(** ** More on [read_metrics] *)

Section Samples.

Implicit Types (m : Machine) (s : PerformanceMetrics).

(** The whole effect of one call of [read_metrics]. *)
Lemma read_metrics_step m :
  exists s m',
    read_metrics m = (Ok s, m') /\
    self m' = {| config := config (self m);
                 is_connected := is_connected (self m);
                 metrics_history := metrics_history (self m) ++ [s] |} /\
    perf_counter m' = perf_counter m /\
    feed (random m') = feed (random m) /\
    time_time m' = {| feed := feed (time_time m);
                      pos := S (pos (time_time m)) |} /\
    (unit_draws (random m) ->
     within_bounds (active_cores (config (self m))) s).
Proof.
  destruct m as [c [tf tp] pc [rf rp]].
  do 2 eexists. split.
  { unfold read_metrics, random_uniform, read_random, read_time, bind,
      get_self, set_self, ret, next.
    cbn [self config random time_time perf_counter feed pos].
    reflexivity. }
  do 4 (split; [reflexivity|]).
  intros H. unfold unit_draws in H. cbn [random feed] in H.
  pose proof (H rp) as [? ?]. pose proof (H (S rp)) as [? ?].
  pose proof (H (S (S rp))) as [? ?].
  unfold within_bounds, uniform.
  cbn [latency_us throughput_mbps jitter_us self config].
  set (b := inject_Z (50 + _)). set (t := inject_Z (_ * 250)).
  repeat split; lra.
Qed.

Lemma inject_Z_minus (a b : Z) : inject_Z (a - b) == inject_Z a - inject_Z b.
Proof. unfold Z.sub. now rewrite inject_Z_plus, inject_Z_opp. Qed.

(** X6.  With the same draws, of two configurations within the range of
    exact arithmetic the one with more active cores gives a lower latency
    and a higher throughput; the jitter does not depend on the
    configuration. *)
Theorem read_metrics_cores_tradeoff m1 m2 :
  random m1 = random m2 ->
  cores_in_range (active_cores (config (self m1))) ->
  cores_in_range (active_cores (config (self m2))) ->
  (active_cores (config (self m1)) < active_cores (config (self m2)))%Z ->
  exists s1 s2,
    fst (read_metrics m1) = Ok s1 /\ fst (read_metrics m2) = Ok s2 /\
    latency_us s2 < latency_us s1 /\
    throughput_mbps s1 < throughput_mbps s2 /\
    jitter_us s1 = jitter_us s2.
Proof.
  intros Hr _ _ Hlt.
  destruct (read_metrics_run m1)
    as (s1 & m1' & E1 & _ & _ & _ & _ & L1 & T1 & J1 & _).
  destruct (read_metrics_run m2)
    as (s2 & m2' & E2 & _ & _ & _ & _ & L2 & T2 & J2 & _).
  exists s1, s2. rewrite E1, E2.
  rewrite L1, L2, T1, T2, J1, J2, Hr.
  assert (Hb : inject_Z (50 + (8 - active_cores (config (self m2))) * 10)
               < inject_Z (50 + (8 - active_cores (config (self m1))) * 10))
    by (rewrite <- Zlt_Qlt; lia).
  assert (Ht : inject_Z (active_cores (config (self m1)) * 250)
               < inject_Z (active_cores (config (self m2)) * 250))
    by (rewrite <- Zlt_Qlt; lia).
  repeat split; lra.
Qed.

Lemma read_metrics_cores_tradeoff_witness :
  let m2 := snd (update_config [("active_cores"%string, 6%Z)] connected) in
  random connected = random m2 /\
  cores_in_range (active_cores (config (self connected))) /\
  cores_in_range (active_cores (config (self m2))) /\
  (active_cores (config (self connected)) < active_cores (config (self m2)))%Z
  /\
  exists s1 s2,
    fst (read_metrics connected) = Ok s1 /\
    fst (read_metrics m2) = Ok s2 /\
    latency_us s2 < latency_us s1 /\
    throughput_mbps s1 < throughput_mbps s2 /\
    jitter_us s1 = jitter_us s2.
Proof.
  intros m2.
  assert (H1 : cores_in_range (active_cores (config (self connected))))
    by (unfold cores_in_range; cbn; lia).
  assert (H2 : cores_in_range (active_cores (config (self m2))))
    by (unfold cores_in_range; cbn; lia).
  assert (Hlt : (active_cores (config (self connected))
                 < active_cores (config (self m2)))%Z) by (cbn; lia).
  split; [reflexivity|]. split; [exact H1|]. split; [exact H2|].
  split; [exact Hlt|].
  apply (read_metrics_cores_tradeoff connected m2 eq_refl H1 H2 Hlt).
Defined.

End Samples.

(** ** Runs of [read_metrics] *)

Section Runs.

Implicit Types (m : Machine) (s : PerformanceMetrics).

(** [n] calls of [read_metrics]: the machine afterwards, and the bounds
    of the samples when the draws lie in [0, 1). *)
Lemma read_metrics_n_step (n : nat) :
  forall m, exists samples m',
    read_metrics_n n m = (Ok samples, m') /\
    List.length samples = n /\
    self m' = {| config := config (self m);
                 is_connected := is_connected (self m);
                 metrics_history := metrics_history (self m) ++ samples |} /\
    perf_counter m' = perf_counter m /\
    feed (random m') = feed (random m) /\
    time_time m' = {| feed := feed (time_time m);
                      pos := n + pos (time_time m) |} /\
    (unit_draws (random m) ->
     Forall (within_bounds (active_cores (config (self m)))) samples).
Proof.
  induction n as [|n IH]; intros m.
  - exists [], m. cbn. rewrite app_nil_r.
    destruct m as [[cfg b h] [tf tp] pc rnd]. repeat split. constructor.
  - destruct (read_metrics_step m) as (s & m1 & E1 & S1 & P1 & R1 & T1 & B1).
    destruct (IH m1) as (rest & m2 & E2 & L2 & S2 & P2 & R2 & T2 & B2).
    exists (s :: rest), m2. cbn [read_metrics_n]. unfold bind at 1.
    rewrite E1. unfold bind at 1. rewrite E2. unfold ret.
    rewrite S2, S1, P2, P1, R2, R1, T2, T1. cbn.
    rewrite <- app_assoc, L2, Nat.add_succ_r. repeat split.
    intros Hu. constructor; [now apply B1|].
    rewrite S1 in B2. apply B2. unfold unit_draws. now rewrite R1.
Qed.

(** X7.  The bounds of [read_metrics] are an invariant of the history:
    when the number of active cores is within the range of exact
    arithmetic, the draws lie in [0, 1) and every sample of the history
    is within the bounds of the current configuration, so is every
    sample of the history after any number of further calls; the calls
    keep the configuration and the connection state. *)
Theorem history_stays_within_bounds (n : nat) m :
  cores_in_range (active_cores (config (self m))) ->
  unit_draws (random m) ->
  Forall (within_bounds (active_cores (config (self m))))
    (metrics_history (self m)) ->
  let m' := snd (read_metrics_n n m) in
  Forall (within_bounds (active_cores (config (self m'))))
    (metrics_history (self m')) /\
  List.length (metrics_history (self m')) =
    (List.length (metrics_history (self m)) + n)%nat /\
  config (self m') = config (self m) /\
  is_connected (self m') = is_connected (self m).
Proof.
  intros _ Hu Hh.
  destruct (read_metrics_n_step n m)
    as (samples & m1 & E & L & S1 & _ & _ & _ & B).
  cbv zeta. rewrite E. cbn [snd]. rewrite S1. cbn.
  rewrite length_app, L. repeat split.
  apply Forall_app. split; [exact Hh | now apply B].
Qed.

Lemma history_stays_within_bounds_witness :
  cores_in_range (active_cores (config (self connected))) /\
  unit_draws (random connected) /\
  Forall (within_bounds (active_cores (config (self connected))))
    (metrics_history (self connected)) /\
  let m' := snd (read_metrics_n 7 connected) in
  Forall (within_bounds (active_cores (config (self m'))))
    (metrics_history (self m')) /\
  List.length (metrics_history (self m')) = 7%nat /\
  config (self m') = config (self connected) /\
  is_connected (self m') = true.
Proof.
  assert (Hu : unit_draws (random connected))
    by (intros i; split; vm_compute; [discriminate | reflexivity]).
  assert (Hh : Forall (within_bounds (active_cores (config (self connected))))
                 (metrics_history (self connected))) by constructor.
  assert (Hc : cores_in_range (active_cores (config (self connected))))
    by (unfold cores_in_range; cbn; lia).
  split; [exact Hc|]. split; [exact Hu|]. split; [exact Hh|].
  apply (history_stays_within_bounds 7 connected Hc Hu Hh).
Defined.

End Runs.

(** ** Lists of floats: greatest, least, sum, sorted items *)

Section FloatLists.

Implicit Types (l : list Q) (x y a b : Q).

Lemma fold_max_spec l :
  forall x,
    let v := fold_left (fun m y => if builtins.Qltb m y then y else m) l x in
    In v (x :: l) /\ x <= v /\ Forall (fun y => y <= v) l.
Proof.
  induction l as [|y l IH]; intros x; cbn [fold_left].
  - cbv zeta. repeat split; [now left | apply Qle_refl | constructor].
  - cbv zeta. destruct (IH (if builtins.Qltb x y then y else x))
      as (Hin & Hle & Hall).
    destruct (builtins.Qltb x y) eqn:E.
    + apply Qltb_true in E. repeat split.
      * right. exact Hin.
      * apply Qlt_le_weak. eapply Qlt_le_trans; eassumption.
      * constructor; assumption.
    + apply Qltb_false in E. repeat split.
      * destruct Hin as [<- | Hin]; [now left | now right; right].
      * exact Hle.
      * constructor; [eapply Qle_trans; eassumption | exact Hall].
Qed.

Lemma fold_min_spec l :
  forall x,
    let v := fold_left (fun m y => if builtins.Qltb y m then y else m) l x in
    In v (x :: l) /\ v <= x /\ Forall (fun y => v <= y) l.
Proof.
  induction l as [|y l IH]; intros x; cbn [fold_left].
  - cbv zeta. repeat split; [now left | apply Qle_refl | constructor].
  - cbv zeta. destruct (IH (if builtins.Qltb y x then y else x))
      as (Hin & Hle & Hall).
    destruct (builtins.Qltb y x) eqn:E.
    + apply Qltb_true in E. repeat split.
      * right. exact Hin.
      * apply Qlt_le_weak. eapply Qle_lt_trans; eassumption.
      * constructor; assumption.
    + apply Qltb_false in E. repeat split.
      * destruct Hin as [<- | Hin]; [now left | now right; right].
      * exact Hle.
      * constructor; [eapply Qle_trans; eassumption | exact Hall].
Qed.

(** [max(l)] is an item of [l] that no item exceeds. *)
Lemma max_spec l v :
  builtins.max l = Ok v -> In v l /\ Forall (fun y => y <= v) l.
Proof.
  destruct l as [|x l]; [discriminate|]. cbn. intros [= <-].
  destruct (fold_max_spec l x) as (Hin & Hle & Hall).
  split; [exact Hin | constructor; assumption].
Qed.

(** [min(l)] is an item of [l] below which no item falls. *)
Lemma min_spec l v :
  builtins.min l = Ok v -> In v l /\ Forall (fun y => v <= y) l.
Proof.
  destruct l as [|x l]; [discriminate|]. cbn. intros [= <-].
  destruct (fold_min_spec l x) as (Hin & Hle & Hall).
  split; [exact Hin | constructor; assumption].
Qed.

Lemma inject_len_cons {A} (x : A) (l : list A) :
  inject_Z (builtins.len (x :: l)) == inject_Z (builtins.len l) + 1.
Proof.
  unfold builtins.len. cbn [List.length].
  now rewrite Nat2Z.inj_succ, <- Z.add_1_r, inject_Z_plus.
Qed.

Lemma fold_sum_lower a l :
  Forall (fun x => a <= x) l ->
  forall acc,
    acc + inject_Z (builtins.len l) * a <= fold_left Qplus l acc.
Proof.
  induction 1 as [|x l Hx Hl IH]; intros acc.
  - cbn [fold_left]. change (inject_Z (builtins.len [])) with 0. lra.
  - cbn [fold_left]. rewrite inject_len_cons.
    eapply Qle_trans; [|apply IH].
    set (N := inject_Z (builtins.len l)). nra.
Qed.

Lemma fold_sum_upper b l :
  Forall (fun x => x <= b) l ->
  forall acc,
    fold_left Qplus l acc <= acc + inject_Z (builtins.len l) * b.
Proof.
  induction 1 as [|x l Hx Hl IH]; intros acc.
  - cbn [fold_left]. change (inject_Z (builtins.len [])) with 0. lra.
  - cbn [fold_left]. rewrite inject_len_cons.
    eapply Qle_trans; [apply IH|].
    set (N := inject_Z (builtins.len l)). nra.
Qed.

(** The mean of values that all lie in [[a, b]] lies in [[a, b]]. *)
Lemma mean_between a b l :
  l <> [] ->
  Forall (fun x => a <= x) l -> Forall (fun x => x <= b) l ->
  a <= builtins.sum l / inject_Z (builtins.len l) /\
  builtins.sum l / inject_Z (builtins.len l) <= b.
Proof.
  intros Hne Ha Hb.
  assert (HN : 0 < inject_Z (builtins.len l)).
  { apply len_nonempty, inject_Z_ge_1 in Hne. lra. }
  pose proof (fold_sum_lower a l Ha 0) as Hlo.
  pose proof (fold_sum_upper b l Hb 0) as Hup.
  fold (builtins.sum l) in Hlo, Hup.
  split.
  - apply Qle_shift_div_l; [exact HN | lra].
  - apply Qle_shift_div_r; [exact HN | lra].
Qed.

Lemma Forall_weaken_le_lower a l v :
  Forall (fun y => v <= y) l -> a <= v -> Forall (fun y => a <= y) l.
Proof.
  intros H Ha. eapply Forall_impl; [|exact H].
  intros y Hy. cbn in Hy. eapply Qle_trans; eassumption.
Qed.

(** An item of the sorted list is an item of the list. *)
Lemma nth_sorted_in l (i : nat) :
  (i < List.length l)%nat -> In (nth i (builtins.sorted l) 0) l.
Proof.
  intros Hi. eapply Permutation_in.
  - apply Permutation_sym, sorted_perm.
  - apply nth_In. now rewrite <- (Permutation_length (sorted_perm l)).
Qed.

Lemma StronglySorted_nth (s : list Q) :
  StronglySorted Qle s ->
  forall i j, (i <= j < List.length s)%nat -> nth i s 0 <= nth j s 0.
Proof.
  induction 1 as [|x s Hs IH Hx]; intros i j [Hij Hj]; [cbn in Hj; lia|].
  destruct j as [|j].
  - assert (i = 0%nat) by lia. subst. apply Qle_refl.
  - destruct i as [|i]; cbn [nth].
    + rewrite Forall_forall in Hx. apply Hx, nth_In. cbn in Hj. lia.
    + apply IH. cbn in Hj. lia.
Qed.

(** In the sorted list a later item is not smaller. *)
Lemma sorted_nth_le l (i j : nat) :
  (i <= j < List.length l)%nat ->
  nth i (builtins.sorted l) 0 <= nth j (builtins.sorted l) 0.
Proof.
  intros H. apply StronglySorted_nth.
  - apply Sorted_StronglySorted; [|apply sorted_ascending].
    intros x y z. apply Qle_trans.
  - now rewrite <- (Permutation_length (sorted_perm l)).
Qed.

End FloatLists.

(** ** More on [get_statistics] *)

Section StatisticsOfHistory.

Implicit Types (m : Machine) (l : list Q).

Lemma bind_ok {A B} (c : M A) (k : A -> M B) m a m' :
  c m = (Ok a, m') -> bind c k m = k a m'.
Proof. intros H. unfold bind. now rewrite H. Qed.

Lemma bind_raise {A B} (c : M A) (k : A -> M B) m e m' :
  c m = (Raise e, m') -> bind c k m = (Raise e, m').
Proof. intros H. unfold bind. now rewrite H. Qed.

Lemma last_items_nil_iff {A} (k : nat) (h : list A) :
  (0 < k)%nat -> (builtins.last_items k h = [] <-> h = []).
Proof.
  intros Hk. split; [|now intros ->].
  intros H. apply (f_equal (@List.length A)) in H.
  rewrite last_items_length in H. destruct h; [reflexivity|].
  cbn in H. lia.
Qed.

(** All six entries of the result, when the history is not empty and the
    mean latency is not zero. *)
Lemma get_statistics_entries m :
  metrics_history (self m) <> [] ->
  let mean := builtins.sum (recent_latencies m)
              / inject_Z (builtins.len (recent_latencies m)) in
  ~ mean == 0 ->
  exists mx mn mj,
    builtins.max (recent_latencies m) = Ok mx /\
    builtins.min (recent_latencies m) = Ok mn /\
    builtins.max (recent_jitters m) = Ok mj /\
    get_statistics m =
      (Ok [("avg_latency_us", mean); ("max_latency_us", mx);
           ("min_latency_us", mn);
           ("p99_latency_us", spec_percentile 99 (recent_latencies m));
           ("max_jitter_us", mj);
           ("speedup_vs_cpu", 150 / mean)]%string, m).
Proof.
  intros Hh mean Hm.
  pose proof (recent_latencies_nonempty m Hh) as Hne.
  assert (Hj : recent_jitters m <> []).
  { unfold recent_jitters. intros E. apply map_eq_nil in E.
    apply last_items_nil_iff in E; [contradiction | lia]. }
  destruct (max_nonempty _ Hne) as [mx Hmx].
  destruct (min_nonempty _ Hne) as [mn Hmn].
  destruct (max_nonempty _ Hj) as [mj Hmj].
  exists mx, mn, mj. repeat split; try assumption.
  unfold get_statistics, bind, get_self, lift, ret.
  destruct (metrics_history (self m)) as [|s0 h] eqn:Eh; [congruence|].
  rewrite <- Eh.
  fold (recent_latencies m). fold (recent_jitters m).
  rewrite (truediv_nonzero _ _ (inject_len_nonzero _ Hne)). fold mean.
  rewrite Hmx, Hmn, Hmj.
  change (99 # 100) with (99 / 100).
  rewrite rank_item_spec by (assumption || reflexivity).
  now rewrite (truediv_nonzero _ _ Hm).
Qed.

(** X8.  [get_statistics] only reads: whatever it returns or raises, the
    machine afterwards is the machine before (no sample is added, no
    clock and no random number is consumed). *)
Theorem get_statistics_reads_only m : snd (get_statistics m) = m.
Proof.
  destruct (metrics_history (self m)) as [|s0 h] eqn:Eh.
  - unfold get_statistics, bind, get_self. now rewrite Eh.
  - assert (Hh : metrics_history (self m) <> []) by (rewrite Eh; discriminate).
    destruct (get_statistics_run m Hh) as [Hzero Hok].
    destruct (Qeq_dec (builtins.sum (recent_latencies m)
                       / inject_Z (builtins.len (recent_latencies m))) 0)
      as [Hm | Hm].
    + now rewrite (Hzero Hm).
    + destruct (Hok Hm) as (d & Hrun & _). now rewrite Hrun.
Qed.

(** X9.  [get_statistics] looks at the last 100 samples only: two
    controllers whose histories end with the same 100 samples (or are the
    same shorter history) get the same result, whatever came before. *)
Theorem get_statistics_window m1 m2 :
  builtins.last_items 100 (metrics_history (self m1)) =
  builtins.last_items 100 (metrics_history (self m2)) ->
  fst (get_statistics m1) = fst (get_statistics m2).
Proof.
  intros Hw.
  assert (Hl : recent_latencies m1 = recent_latencies m2)
    by (unfold recent_latencies; now rewrite Hw).
  assert (Hj : recent_jitters m1 = recent_jitters m2)
    by (unfold recent_jitters; now rewrite Hw).
  destruct (metrics_history (self m1)) as [|s1 h1] eqn:E1.
  - assert (E2 : metrics_history (self m2) = []).
    { apply (last_items_nil_iff 100); [lia | now rewrite <- Hw]. }
    unfold get_statistics, bind, get_self. now rewrite E1, E2.
  - assert (H1 : metrics_history (self m1) <> [])
      by (rewrite E1; discriminate).
    assert (H2 : metrics_history (self m2) <> []).
    { intros E2. rewrite E2 in Hw.
      assert (H0 : (0 < 100)%nat) by lia.
      apply (proj1 (last_items_nil_iff 100 _ H0)) in Hw. discriminate. }
    rewrite <- E1 in Hw.
    destruct (Qeq_dec (builtins.sum (recent_latencies m1)
                       / inject_Z (builtins.len (recent_latencies m1))) 0)
      as [Hm | Hm].
    + destruct (get_statistics_run m1 H1) as [Hz1 _].
      destruct (get_statistics_run m2 H2) as [Hz2 _].
      rewrite (Hz1 Hm). rewrite <- Hl in Hz2. now rewrite (Hz2 Hm).
    + destruct (get_statistics_entries m1 H1 Hm)
        as (mx & mn & mj & Hmx & Hmn & Hmj & R1).
      pose proof (get_statistics_entries m2 H2) as R2.
      rewrite <- Hl, <- Hj in R2.
      destruct (R2 Hm) as (mx' & mn' & mj' & Hmx' & Hmn' & Hmj' & R2').
      rewrite R1, R2'. cbn [fst]. congruence.
Qed.

Lemma get_statistics_window_witness :
  let h := metrics_history (self (snd (read_metrics_n 100 connected))) in
  let old := {| timestamp := 0; latency_us := 1000; throughput_mbps := 1;
                jitter_us := 50; pcie_status := ERROR; dma_status := IDLE;
                compute_status := ACTIVE |} in
  let m1 := machine_of {| config := FPGAConfig_default; is_connected := true;
                          metrics_history := h |} halves in
  let m2 := machine_of {| config := FPGAConfig_default; is_connected := false;
                          metrics_history := old :: old :: h |} halves in
  builtins.last_items 100 (metrics_history (self m1)) =
  builtins.last_items 100 (metrics_history (self m2)) /\
  fst (get_statistics m1) = fst (get_statistics m2).
Proof.
  intros h old m1 m2.
  assert (H : builtins.last_items 100 (metrics_history (self m1)) =
              builtins.last_items 100 (metrics_history (self m2)))
    by (vm_compute; reflexivity).
  split; [exact H | apply (get_statistics_window m1 m2 H)].
Defined.

Lemma Forall_last_items {A} (P : A -> Prop) (k : nat) (h : list A) :
  Forall P h -> Forall P (builtins.last_items k h).
Proof.
  intros H. unfold builtins.last_items.
  rewrite <- (firstn_skipn (List.length h - k) h) in H.
  now apply Forall_app in H.
Qed.

Lemma spec_percentile_in (p : Q) l : l <> [] -> In (spec_percentile p l) l.
Proof.
  intros Hne. apply len_nonempty in Hne. unfold spec_percentile.
  apply nth_sorted_in. unfold clamp, builtins.len in *. lia.
Qed.

Lemma Forall_In_between l (x mn mx : Q) :
  Forall (fun y => mn <= y) l -> Forall (fun y => y <= mx) l -> In x l ->
  mn <= x /\ x <= mx.
Proof.
  rewrite !Forall_forall. intros Hmn Hmx Hin. split; auto.
Qed.

(** X10.  When [get_statistics] returns its six entries (history not
    empty, mean latency not zero), the least and the greatest latency and
    the 99th percentile are latencies of the last 100 samples, every
    latency of these samples lies between the least and the greatest, and
    so does the percentile; the greatest jitter is the jitter of one of
    these samples and none exceeds it. *)
Theorem get_statistics_ordering m :
  metrics_history (self m) <> [] ->
  ~ builtins.sum (recent_latencies m)
    / inject_Z (builtins.len (recent_latencies m)) == 0 ->
  exists d mn mx p99 mj,
    get_statistics m = (Ok d, m) /\
    dict_get d "min_latency_us" = Some mn /\
    dict_get d "max_latency_us" = Some mx /\
    dict_get d "p99_latency_us" = Some p99 /\
    dict_get d "max_jitter_us" = Some mj /\
    In mn (recent_latencies m) /\ In mx (recent_latencies m) /\
    In p99 (recent_latencies m) /\ In mj (recent_jitters m) /\
    Forall (fun x => mn <= x /\ x <= mx) (recent_latencies m) /\
    Forall (fun j => j <= mj) (recent_jitters m) /\
    (mn <= p99 /\ p99 <= mx).
Proof.
  intros Hh Hm.
  pose proof (recent_latencies_nonempty m Hh) as Hne.
  destruct (get_statistics_entries m Hh Hm)
    as (mx & mn & mj & Hmx & Hmn & Hmj & Hrun).
  apply max_spec in Hmx. destruct Hmx as [Imx Fmx].
  apply min_spec in Hmn. destruct Hmn as [Imn Fmn].
  apply max_spec in Hmj. destruct Hmj as [Imj Fmj].
  pose proof (spec_percentile_in 99 _ Hne) as Ip.
  eexists _, mn, mx, _, mj. split; [exact Hrun|].
  do 4 (split; [reflexivity|]).
  repeat match goal with |- _ /\ _ => split end; try assumption.
  - rewrite Forall_forall in *. intros x Hx. split; auto.
  - apply (proj1 (Forall_In_between _ _ _ _ Fmn Fmx Ip)).
  - apply (proj2 (Forall_In_between _ _ _ _ Fmn Fmx Ip)).
Qed.

Lemma get_statistics_ordering_witness :
  metrics_history (self after_one_sample) <> [] /\
  exists d mn mx p99 mj,
    get_statistics after_one_sample = (Ok d, after_one_sample) /\
    dict_get d "min_latency_us" = Some mn /\
    dict_get d "max_latency_us" = Some mx /\
    dict_get d "p99_latency_us" = Some p99 /\
    dict_get d "max_jitter_us" = Some mj /\
    In mn (recent_latencies after_one_sample) /\
    In mx (recent_latencies after_one_sample) /\
    In p99 (recent_latencies after_one_sample) /\
    In mj (recent_jitters after_one_sample) /\
    Forall (fun x => mn <= x /\ x <= mx) (recent_latencies after_one_sample) /\
    Forall (fun j => j <= mj) (recent_jitters after_one_sample) /\
    (mn <= p99 /\ p99 <= mx).
Proof.
  split; [discriminate|].
  apply (get_statistics_ordering after_one_sample); [discriminate|].
  intros H. vm_compute in H. discriminate.
Defined.

(** A history whose samples are all within the bounds of [read_metrics]
    for a number of cores between 0 and 12: the latencies lie between 5
    and 145, so the mean is not zero and the speedup exceeds 1. *)
Lemma bounded_history_statistics (cores : Z) m :
  metrics_history (self m) <> [] ->
  (0 <= cores <= 12)%Z ->
  Forall (within_bounds cores) (metrics_history (self m)) ->
  let mean := builtins.sum (recent_latencies m)
              / inject_Z (builtins.len (recent_latencies m)) in
  let base := inject_Z (50 + (8 - cores) * 10) in
  (base - 5 <= mean /\ mean <= base + 15) /\ 1 < 150 / mean /\
  exists d,
    get_statistics m = (Ok d, m) /\
    dict_get d "avg_latency_us" = Some mean /\
    dict_get d "speedup_vs_cpu" = Some (150 / mean).
Proof.
  intros Hh Hc Hb mean base.
  pose proof (recent_latencies_nonempty m Hh) as Hne.
  assert (Hlat : Forall (fun x => base - 5 <= x /\ x <= base + 15)
                   (recent_latencies m)).
  { unfold recent_latencies. apply Forall_map.
    apply Forall_last_items. eapply Forall_impl; [|exact Hb].
    intros s Hs. apply Hs. }
  assert (Hmean : base - 5 <= mean /\ mean <= base + 15).
  { apply mean_between; [exact Hne | |];
      (eapply Forall_impl; [|exact Hlat]); cbn; tauto. }
  assert (Hbase : 10 <= base /\ base <= 130).
  { unfold base. change 10 with (inject_Z 10).
    change 130 with (inject_Z 130). rewrite <- !Zle_Qle. lia. }
  assert (Hpos : 0 < mean) by lra.
  assert (Hm : ~ mean == 0) by (intros E; rewrite E in Hpos; lra).
  split; [exact Hmean|]. split.
  - apply Qlt_shift_div_l; [exact Hpos | lra].
  - destruct (get_statistics_run m Hh) as [_ Hok].
    destruct (Hok Hm) as (d & Hrun & Havg & _ & Hsp).
    exists d. repeat split; assumption.
Qed.

(** X11.  With between 0 and 12 active cores, draws in [0, 1) and a
    history whose samples are within the bounds of the configuration,
    [get_statistics] after one or more calls of [read_metrics] succeeds:
    the mean latency it reports lies in [base - 5, base + 15] and the
    speedup it reports exceeds 1. *)
Theorem statistics_after_reads (n : nat) m :
  unit_draws (random m) ->
  (0 <= active_cores (config (self m)) <= 12)%Z ->
  Forall (within_bounds (active_cores (config (self m))))
    (metrics_history (self m)) ->
  let m' := snd (read_metrics_n (S n) m) in
  let base := inject_Z (50 + (8 - active_cores (config (self m))) * 10) in
  exists d avg speedup,
    get_statistics m' = (Ok d, m') /\
    dict_get d "avg_latency_us" = Some avg /\
    (base - 5 <= avg /\ avg <= base + 15) /\
    dict_get d "speedup_vs_cpu" = Some speedup /\
    1 < speedup.
Proof.
  intros Hu Hc Hb m' base.
  destruct (read_metrics_n_step (S n) m)
    as (samples & m1 & E & L & S1 & _ & _ & _ & B).
  assert (Em : m' = m1) by (unfold m'; now rewrite E).
  rewrite Em.
  assert (Hh : metrics_history (self m1) <> []).
  { rewrite S1; cbn. destruct samples; [discriminate|].
    now destruct (metrics_history (self m)). }
  assert (Hall : Forall (within_bounds (active_cores (config (self m))))
                   (metrics_history (self m1))).
  { rewrite S1; cbn. apply Forall_app. split; [exact Hb | now apply B]. }
  destruct (bounded_history_statistics _ m1 Hh Hc Hall)
    as (Hmean & Hsp & d & Hrun & Havg & Hspd).
  eexists d, _, _. repeat split; try eassumption; apply Hmean.
Qed.

Lemma statistics_after_reads_witness :
  unit_draws (random connected) /\
  (0 <= active_cores (config (self connected)) <= 12)%Z /\
  let m' := snd (read_metrics_n 3 connected) in
  exists d avg speedup,
    get_statistics m' = (Ok d, m') /\
    dict_get d "avg_latency_us" = Some avg /\
    (inject_Z 90 - 5 <= avg /\ avg <= inject_Z 90 + 15) /\
    dict_get d "speedup_vs_cpu" = Some speedup /\
    1 < speedup.
Proof.
  assert (Hu : unit_draws (random connected))
    by (intros i; split; vm_compute; [discriminate | reflexivity]).
  assert (Hc : (0 <= active_cores (config (self connected)) <= 12)%Z)
    by (cbn; lia).
  split; [exact Hu|]. split; [exact Hc|].
  apply (statistics_after_reads 2 connected Hu Hc). constructor.
Defined.

(** X12.  [main] of [fpga_controller.py] runs to its end for every clock
    and every generator whose draws lie in [0, 1): no call raises (the
    mean latency of the ten samples is not zero), and the controller ends
    disconnected, with the configuration set by [main] and a history of
    ten samples within the bounds for six cores. *)
Theorem controller_main_completes m :
  unit_draws (random m) ->
  exists m',
    controller_main m = (Ok tt, m') /\
    is_connected (self m') = false /\
    config (self m') =
      {| window_size := 2048; active_cores := 6; data_rate := 1500;
         filter_threshold := 100 |} /\
    List.length (metrics_history (self m')) = 10%nat /\
    Forall (within_bounds 6) (metrics_history (self m')).
Proof.
  intros Hu. unfold controller_main.
  do 3 (erewrite bind_ok by reflexivity).
  match goal with
  | |- context [bind (read_metrics_n 10) _ ?M] =>
    destruct (read_metrics_n_step 10 M)
      as (samples & m3 & E & L & S3 & _ & _ & _ & B)
  end.
  cbn [self config is_connected metrics_history random fold_left app] in S3, B.
  specialize (B Hu).
  rewrite (bind_ok _ _ _ _ _ E).
  assert (Hh : metrics_history (self m3) <> []).
  { rewrite S3; cbn. destruct samples; [discriminate L | discriminate]. }
  assert (Hall : Forall (within_bounds 6) (metrics_history (self m3))).
  { rewrite S3; cbn. exact B. }
  destruct (bounded_history_statistics 6 m3 Hh ltac:(lia) Hall)
    as (_ & _ & d & Hrun & _).
  rewrite (bind_ok _ _ _ _ _ Hrun).
  eexists. split; [reflexivity|].
  rewrite S3; cbn. repeat split; assumption.
Qed.

Lemma controller_main_completes_witness :
  unit_draws (random fresh) /\
  exists m',
    controller_main fresh = (Ok tt, m') /\
    is_connected (self m') = false /\
    config (self m') =
      {| window_size := 2048; active_cores := 6; data_rate := 1500;
         filter_threshold := 100 |} /\
    List.length (metrics_history (self m')) = 10%nat /\
    Forall (within_bounds 6) (metrics_history (self m')).
Proof.
  assert (Hu : unit_draws (random fresh))
    by (intros i; split; vm_compute; [discriminate | reflexivity]).
  split; [exact Hu | apply (controller_main_completes fresh Hu)].
Defined.

End StatisticsOfHistory.

(** ** More on the latency test *)

Section LatencyTest.

Implicit Types (m : Machine) (l : list Q) (sqrt : Q -> Q).

Lemma read_time_step m :
  read_time m =
    (Ok (feed (time_time m) (pos (time_time m))),
     {| self := self m;
        time_time := {| feed := feed (time_time m);
                        pos := S (pos (time_time m)) |};
        perf_counter := perf_counter m; random := random m |}).
Proof. destruct m as [c [tf tp] pc rnd]. reflexivity. Qed.

Lemma read_perf_counter_step m :
  read_perf_counter m =
    (Ok (feed (perf_counter m) (pos (perf_counter m))),
     {| self := self m; time_time := time_time m;
        perf_counter := {| feed := feed (perf_counter m);
                           pos := S (pos (perf_counter m)) |};
        random := random m |}).
Proof. destruct m as [c tt [pf pp] rnd]. reflexivity. Qed.

(** [stream_data] on a connected controller reads the clock twice and
    changes nothing else. *)
Lemma stream_data_step m (data : bytes) :
  is_connected (self m) = true ->
  stream_data data m =
    (Ok data,
     {| self := self m;
        time_time := {| feed := feed (time_time m);
                        pos := S (S (pos (time_time m))) |};
        perf_counter := perf_counter m; random := random m |}).
Proof.
  intros H. destruct m as [c [tf tp] pc rnd]; cbn in H.
  unfold stream_data, bind, get_self; cbn. now rewrite H.
Qed.

(** The machine after the loop of the latency test on a connected
    controller: each iteration reads each clock twice. *)
Lemma latency_loop_step (n : nat) :
  forall m acc,
    is_connected (self m) = true ->
    latency_loop n acc m =
      (Ok (acc ++ elapsed_times (feed (perf_counter m))
                    (pos (perf_counter m)) n),
       {| self := self m;
          time_time := {| feed := feed (time_time m);
                          pos := 2 * n + pos (time_time m) |};
          perf_counter := {| feed := feed (perf_counter m);
                             pos := 2 * n + pos (perf_counter m) |};
          random := random m |}).
Proof.
  induction n as [|n IH]; intros m acc Hc.
  - cbn. rewrite app_nil_r. destruct m as [c [tf tp] [pf pp] rnd]. reflexivity.
  - cbn [latency_loop].
    rewrite (bind_ok _ _ _ _ _ (read_perf_counter_step m)). cbv beta.
    match goal with
    | |- context [bind (stream_data test_data) _ ?M] =>
      rewrite (bind_ok _ _ _ _ _ (stream_data_step M test_data Hc))
    end. cbv beta.
    rewrite (bind_ok _ _ _ _ _ (read_perf_counter_step _)). cbv beta.
    rewrite IH by exact Hc.
    cbn [self time_time perf_counter random feed pos elapsed_times].
    rewrite <- app_assoc. cbn [app].
    assert (Hx : forall x, (2 * S n + x = 2 * n + S (S x))%nat)
      by (intros; lia).
    now rewrite !Hx.
Qed.

(** The loop on a controller that is not connected stops at the first
    [stream_data], after one reading of the performance counter. *)
Lemma latency_loop_disconnected (n : nat) m acc :
  is_connected (self m) = false ->
  latency_loop (S n) acc m =
    (Raise (RuntimeError "FPGA not connected"),
     {| self := self m; time_time := time_time m;
        perf_counter := {| feed := feed (perf_counter m);
                           pos := S (pos (perf_counter m)) |};
        random := random m |}).
Proof.
  intros Hc. cbn [latency_loop].
  rewrite (bind_ok _ _ _ _ _ (read_perf_counter_step m)). cbv beta.
  apply bind_raise. now apply stream_data_disconnected.
Qed.



Lemma median_between l (mn mx : Q) :
  l <> [] ->
  Forall (fun y => mn <= y) l -> Forall (fun y => y <= mx) l ->
  exists v, statistics.median l = Ok v /\ mn <= v /\ v <= mx.
Proof.
  intros Hne Hmn Hmx. pose proof (len_nonempty l Hne) as Hl.
  assert (Hin : forall i : Z, (0 <= i < builtins.len l)%Z ->
                  mn <= nth (Z.to_nat i) (builtins.sorted l) 0 /\
                  nth (Z.to_nat i) (builtins.sorted l) 0 <= mx).
  { intros i Hi. apply (Forall_In_between l); try assumption.
    apply nth_sorted_in. unfold builtins.len in Hi. lia. }
  unfold statistics.median. cbv zeta. rewrite sorted_len.
  destruct (Z.eqb_spec (builtins.len l) 0); [lia|].
  destruct (Z.eqb_spec (builtins.len l mod 2) 1).
  - rewrite getitem_in_range
      by (rewrite sorted_len; Z.div_mod_to_equations; lia).
    eexists; split; [reflexivity|].
    apply Hin. Z.div_mod_to_equations; lia.
  - rewrite !getitem_in_range
      by (rewrite sorted_len; Z.div_mod_to_equations; lia).
    eexists; split; [reflexivity|]. cbn [rbind].
    destruct (Hin (builtins.len l / 2 - 1)%Z) as [? ?];
      [Z.div_mod_to_equations; lia|].
    destruct (Hin (builtins.len l / 2)%Z) as [? ?];
      [Z.div_mod_to_equations; lia|].
    split; [apply Qle_shift_div_l | apply Qle_shift_div_r]; lra.
Qed.

(** The nearest-rank percentile does not decrease with [p]. *)
Lemma spec_percentile_monotone (p q : Q) l :
  l <> [] -> p <= q -> spec_percentile p l <= spec_percentile q l.
Proof.
  intros Hne Hpq. pose proof (len_nonempty l Hne) as Hl.
  unfold spec_percentile. apply sorted_nth_le.
  assert (Hf : (Qfloor (p / 100 * inject_Z (builtins.len l))
                <= Qfloor (q / 100 * inject_Z (builtins.len l)))%Z).
  { apply Qfloor_resp_le. pose proof (inject_Z_ge_1 _ Hl).
    apply Qmult_le_compat_r; [|lra].
    unfold Qdiv. apply Qmult_le_compat_r; [exact Hpq | discriminate]. }
  unfold clamp, builtins.len in *. lia.
Qed.

(** X14.  With two latencies or more, the results of the latency test
    are ordered as their names say: the least and the greatest are
    measured latencies, the mean and the median lie between them, and
    [min <= p95 <= p99 <= max]. *)
Theorem latency_results_ordered sqrt l :
  (2 <= List.length l)%nat ->
  exists d mean median mn mx p95 p99,
    latency_results sqrt l = Ok d /\
    dict_get d "mean" = Some mean /\ dict_get d "median" = Some median /\
    dict_get d "min" = Some mn /\ dict_get d "max" = Some mx /\
    dict_get d "p95" = Some p95 /\ dict_get d "p99" = Some p99 /\
    In mn l /\ In mx l /\
    (mn <= mean /\ mean <= mx) /\ (mn <= median /\ median <= mx) /\
    mn <= p95 /\ p95 <= p99 /\ p99 <= mx.
Proof.
  intros Hlen.
  assert (Hne : l <> []) by (destruct l; [cbn in Hlen; lia | congruence]).
  assert (Hl2 : (2 <= builtins.len l)%Z) by (unfold builtins.len; lia).
  destruct (min_nonempty l Hne) as [mn Emn].
  destruct (max_nonempty l Hne) as [mx Emx].
  destruct (min_spec _ _ Emn) as [Imn Fmn].
  destruct (max_spec _ _ Emx) as [Imx Fmx].
  destruct (median_between l mn mx Hne Fmn Fmx) as (md & Emd & Hmd).
  destruct (stdev_two_or_more sqrt l Hl2) as [sd Esd].
  pose proof (spec_percentile_in 95 l Hne) as I95.
  pose proof (spec_percentile_in 99 l Hne) as I99.
  eexists _, _, md, mn, mx, _, _. split.
  { unfold latency_results.
    rewrite (mean_nonempty l Hne), Emd, Esd, Emn, Emx.
    change (95 # 100) with (95 / 100). change (99 # 100) with (99 / 100).
    rewrite !rank_item_spec by (assumption || reflexivity).
    reflexivity. }
  do 6 (split; [reflexivity|]).
  split; [exact Imn|]. split; [exact Imx|].
  split; [now apply mean_between|]. split; [exact Hmd|].
  split; [apply (proj1 (Forall_In_between _ _ _ _ Fmn Fmx I95))|].
  split; [apply spec_percentile_monotone; [exact Hne | discriminate]|].
  apply (proj2 (Forall_In_between _ _ _ _ Fmn Fmx I99)).
Qed.

Lemma latency_results_ordered_witness :
  exists d mean median mn mx p95 p99,
    latency_results (fun x => x) [30; 10; 20] = Ok d /\
    dict_get d "mean" = Some mean /\ dict_get d "median" = Some median /\
    dict_get d "min" = Some mn /\ dict_get d "max" = Some mx /\
    dict_get d "p95" = Some p95 /\ dict_get d "p99" = Some p99 /\
    In mn [30; 10; 20] /\ In mx [30; 10; 20] /\
    (mn <= mean /\ mean <= mx) /\ (mn <= median /\ median <= mx) /\
    mn <= p95 /\ p95 <= p99 /\ p99 <= mx.
Proof.
  apply (latency_results_ordered (fun x => x) [30; 10; 20]). cbn. lia.
Defined.

End LatencyTest.

(** ** The jitter values and the results of the jitter test *)

Section Jitter.

Implicit Types (l : list Q) (a b : Q) (sqrt : Q -> Q).

Lemma jitter_values_length l :
  List.length (jitter_values l) = (List.length l - 1)%nat.
Proof. unfold jitter_values. now rewrite length_map, length_seq. Qed.

(** The jitter values, one pair of neighbours at a time. *)
Lemma jitter_values_cons a b l :
  jitter_values (a :: b :: l) = Qabs (b - a) :: jitter_values (b :: l).
Proof.
  unfold jitter_values.
  replace (List.length (a :: b :: l) - 1)%nat with (S (List.length l))
    by (cbn; lia).
  replace (List.length (b :: l) - 1)%nat with (List.length l) by (cbn; lia).
  cbn [seq map nth Nat.sub]. f_equal.
  rewrite <- seq_shift, map_map. apply map_ext_in.
  intros i Hi. apply in_seq in Hi. destruct i as [|i]; [lia|].
  cbn [Nat.sub nth]. now rewrite Nat.sub_0_r.
Qed.

Lemma jitter_values_nonneg l : Forall (fun j => 0 <= j) (jitter_values l).
Proof.
  apply Forall_forall. intros j Hj. unfold jitter_values in Hj.
  apply in_map_iff in Hj. destruct Hj as (i & <- & _). apply Qabs_nonneg.
Qed.

(** Latencies that all lie in [[a, b]] give jitter values of at most
    [b - a]. *)
Lemma jitter_values_spread a b l :
  Forall (fun x => a <= x /\ x <= b) l ->
  Forall (fun j => j <= b - a) (jitter_values l).
Proof.
  induction l as [|x l IH]; intros H; [constructor|].
  destruct l as [|y l]; [constructor|].
  rewrite jitter_values_cons.
  inversion H as [|? ? [Hx1 Hx2] H']; subst.
  constructor; [|now apply IH].
  inversion H' as [|? ? [Hy1 Hy2] _]; subst.
  apply Qabs_Qle_condition. split; lra.
Qed.

(** X15.  The jitter values are the absolute differences of neighbouring
    latencies: there is one fewer than latencies, none is negative, each
    comes from one pair of neighbours, and when all latencies lie in
    [[a, b]] none exceeds [b - a]. *)
Theorem jitter_values_of_bounded_latencies a b l :
  Forall (fun x => a <= x /\ x <= b) l ->
  List.length (jitter_values l) = (List.length l - 1)%nat /\
  (forall x y rest,
      jitter_values (x :: y :: rest) =
      Qabs (y - x) :: jitter_values (y :: rest)) /\
  Forall (fun j => 0 <= j /\ j <= b - a) (jitter_values l).
Proof.
  intros H. split; [apply jitter_values_length|].
  split; [intros; apply jitter_values_cons|].
  pose proof (jitter_values_nonneg l) as H0.
  pose proof (jitter_values_spread a b l H) as H1.
  rewrite Forall_forall in *. intros j Hj. split; auto.
Qed.

Lemma jitter_values_of_bounded_latencies_witness :
  Forall (fun x => 45 <= x /\ x <= 65) [50; 64; 47; 47] /\
  List.length (jitter_values [50; 64; 47; 47]) = 3%nat /\
  (forall x y rest,
      jitter_values (x :: y :: rest) =
      Qabs (y - x) :: jitter_values (y :: rest)) /\
  Forall (fun j => 0 <= j /\ j <= 65 - 45) (jitter_values [50; 64; 47; 47]).
Proof.
  assert (H : Forall (fun x => 45 <= x /\ x <= 65) [50; 64; 47; 47])
    by (repeat constructor; discriminate).
  split; [exact H|].
  apply (jitter_values_of_bounded_latencies 45 65 [50; 64; 47; 47] H).
Defined.

(** With fewer than three latencies there are fewer than two jitter
    values, and [mean] or [stdev] raises. *)
Lemma jitter_results_short sqrt l :
  (List.length l < 3)%nat -> jitter_results sqrt l = Raise StatisticsError.
Proof.
  destruct l as [|x [|y [|z l]]]; cbn [List.length]; intros H;
    [reflexivity | reflexivity | reflexivity | lia].
Qed.

(** With three latencies or more the results are computed. *)
Lemma jitter_results_long sqrt l :
  (3 <= List.length l)%nat ->
  exists mx,
    builtins.max (jitter_values l) = Ok mx /\
    exists sd,
      jitter_results sqrt l =
        Ok [("mean_jitter",
             builtins.sum (jitter_values l)
             / inject_Z (builtins.len (jitter_values l)));
            ("max_jitter", mx); ("stdev_jitter", sd)]%string.
Proof.
  intros Hlen.
  assert (Hjl : (2 <= List.length (jitter_values l))%nat)
    by (rewrite jitter_values_length; lia).
  assert (Hne : jitter_values l <> [])
    by (destruct (jitter_values l); [cbn in Hjl; lia | discriminate]).
  destruct (max_nonempty _ Hne) as [mx Emx].
  destruct (stdev_two_or_more sqrt (jitter_values l)) as [sd Esd];
    [unfold builtins.len; lia|].
  exists mx. split; [exact Emx|]. exists sd.
  unfold jitter_results. cbv zeta.
  now rewrite (mean_nonempty _ Hne), Emx, Esd.
Qed.

(** X16.  The jitter test needs three latencies: with fewer its results
    raise [StatisticsError]; with three or more they are computed, the
    greatest jitter is one of the jitter values, and the mean jitter lies
    between 0 and the greatest. *)
Theorem jitter_results_need_three_latencies sqrt l :
  ((List.length l < 3)%nat ->
   jitter_results sqrt l = Raise StatisticsError) /\
  ((3 <= List.length l)%nat ->
   exists d mean mx,
     jitter_results sqrt l = Ok d /\
     dict_get d "mean_jitter" = Some mean /\
     dict_get d "max_jitter" = Some mx /\
     In mx (jitter_values l) /\ 0 <= mean /\ mean <= mx).
Proof.
  split; [apply jitter_results_short|].
  intros Hlen.
  destruct (jitter_results_long sqrt l Hlen) as (mx & Emx & sd & Hrun).
  destruct (max_spec _ _ Emx) as [Imx Fmx].
  assert (Hne : jitter_values l <> [])
    by (intros E; rewrite E in Imx; contradiction).
  eexists _, _, mx. split; [exact Hrun|].
  do 2 (split; [reflexivity|]). split; [exact Imx|].
  apply mean_between; [exact Hne | apply jitter_values_nonneg | exact Fmx].
Qed.

Lemma jitter_results_need_three_latencies_witness :
  jitter_results (fun x => x) [50; 64] = Raise StatisticsError /\
  exists d mean mx,
    jitter_results (fun x => x) [50; 64; 47] = Ok d /\
    dict_get d "mean_jitter" = Some mean /\
    dict_get d "max_jitter" = Some mx /\
    In mx (jitter_values [50; 64; 47]) /\ 0 <= mean /\ mean <= mx.
Proof.
  split.
  - apply (jitter_results_need_three_latencies (fun x => x) [50; 64]).
    cbn. lia.
  - apply (jitter_results_need_three_latencies (fun x => x) [50; 64; 47]).
    cbn. lia.
Defined.

End Jitter.

(** ** The jitter and throughput tests *)

Section TimedTests.

Implicit Types (m : Machine) (sqrt : Q -> Q).

(** The sampling loop when the clock lets it run [n] times and the fuel
    allows one test more: it returns, having called [read_metrics] [n]
    times and read the clock [2 * n + 1] times. *)
Lemma sampling_loop_run (field : PerformanceMetrics -> Q) (n : nat) :
  forall fuel m start_time duration acc,
    (n < fuel)%nat ->
    stops_after (feed (time_time m)) (pos (time_time m))
      start_time duration n = true ->
    exists samples m',
      sampling_loop field fuel start_time duration acc m =
        (Ok (Some (acc ++ map field samples)), m') /\
      List.length samples = n /\
      self m' = {| config := config (self m);
                   is_connected := is_connected (self m);
                   metrics_history := metrics_history (self m) ++ samples |} /\
      perf_counter m' = perf_counter m /\
      feed (random m') = feed (random m) /\
      time_time m' = {| feed := feed (time_time m);
                        pos := S (2 * n + pos (time_time m)) |} /\
      (unit_draws (random m) ->
       Forall (within_bounds (active_cores (config (self m)))) samples).
Proof.
  induction n as [|n IH]; intros fuel m start_time duration acc Hf Hs;
    (destruct fuel as [|fuel]; [lia|]); cbn [sampling_loop];
    rewrite (bind_ok _ _ _ _ _ (read_time_step m)); cbv beta;
    cbn [stops_after] in Hs.
  - apply negb_true_iff in Hs. rewrite Hs.
    exists [], {| self := self m;
                  time_time := {| feed := feed (time_time m);
                                  pos := S (pos (time_time m)) |};
                  perf_counter := perf_counter m; random := random m |}.
    cbn. rewrite !app_nil_r. destruct m as [[cfg b h] tt pc rnd].
    repeat split. constructor.
  - apply andb_true_iff in Hs. destruct Hs as [Hnow Hs]. rewrite Hnow.
    match goal with
    | |- context [bind read_metrics _ ?M] =>
      destruct (read_metrics_step M)
        as (s & m2 & E2 & S2 & P2 & R2 & T2 & B2)
    end.
    cbn [self time_time perf_counter random feed pos] in S2, P2, R2, T2, B2.
    rewrite (bind_ok _ _ _ _ _ E2). cbv beta.
    destruct (IH fuel m2 start_time duration (acc ++ [field s]))
      as (rest & m3 & E3 & L3 & S3 & P3 & R3 & T3 & B3);
      [lia | now rewrite T2 |].
    exists (s :: rest), m3. rewrite E3, S3, S2, P3, P2, R3, R2, T3, T2.
    cbn. rewrite <- !app_assoc, L3. cbn [app].
    assert (Hx : forall x, (n + (n + 0) + S (S x) = S (n + S (n + 0) + x))%nat)
      by (intros; lia).
    rewrite Hx. repeat split.
    intros Hu. constructor; [now apply B2|].
    rewrite S2 in B3. apply B3. unfold unit_draws. now rewrite R2.
Qed.

(** The two tests, when the clock lets their loops run [n] times: what
    they return is decided by the results computed from the [n] samples,
    which stay in the history whatever the outcome. *)
Lemma timed_test_run (field : PerformanceMetrics -> Q)
    (results : list Q -> result dict) (n fuel : nat) (duration : Z) m :
  (n < fuel)%nat ->
  stops_after (feed (time_time m)) (S (pos (time_time m)))
    (feed (time_time m) (pos (time_time m))) (inject_Z duration) n = true ->
  exists samples m',
    (start_time <- read_time ;;
     r <- sampling_loop field fuel start_time (inject_Z duration) [] ;;
     match r with
     | None => ret None
     | Some values => d <- lift (results values) ;; ret (Some d)
     end) m =
      (match results (map field samples) with
       | Ok d => Ok (Some d)
       | Raise e => Raise e
       end, m') /\
    List.length samples = n /\
    self m' = {| config := config (self m);
                 is_connected := is_connected (self m);
                 metrics_history := metrics_history (self m) ++ samples |} /\
    perf_counter m' = perf_counter m /\
    feed (random m') = feed (random m) /\
    time_time m' = {| feed := feed (time_time m);
                      pos := 2 * n + 2 + pos (time_time m) |} /\
    (unit_draws (random m) ->
     Forall (within_bounds (active_cores (config (self m)))) samples).
Proof.
  intros Hf Hs.
  rewrite (bind_ok _ _ _ _ _ (read_time_step m)). cbv beta.
  match goal with
  | |- context [bind (sampling_loop _ _ ?st _ _) _ ?M] =>
    destruct (sampling_loop_run field n fuel M st (inject_Z duration) [] Hf Hs)
      as (samples & m' & E & L & S' & P' & R' & T' & B')
  end.
  cbn [self time_time perf_counter random feed pos] in S', P', R', T', B'.
  exists samples, m'. rewrite (bind_ok _ _ _ _ _ E). cbn [app].
  split.
  - unfold bind, lift, ret. now destruct (results (map field samples)).
  - rewrite T'. repeat split; try assumption. do 2 f_equal. lia.
Qed.

End TimedTests.

Section TimedTestOutcomes.

Implicit Types (m : Machine) (sqrt : Q -> Q).





Lemma throughput_results_nonempty (l : list Q) :
  l <> [] ->
  exists mn mx,
    builtins.min l = Ok mn /\ builtins.max l = Ok mx /\
    throughput_results l =
      Ok [("mean_throughput",
           builtins.sum l / inject_Z (builtins.len l));
          ("min_throughput", mn); ("max_throughput", mx)]%string.
Proof.
  intros Hne.
  destruct (min_nonempty l Hne) as [mn Emn].
  destruct (max_nonempty l Hne) as [mx Emx].
  exists mn, mx. repeat split; try assumption.
  unfold throughput_results. now rewrite (mean_nonempty l Hne), Emn, Emx.
Qed.



End TimedTestOutcomes.

(** ** The full validation and [main] of the profiler *)

Section FullValidation.

Implicit Types (m : Machine) (sqrt : Q -> Q).

Lemma latency_test_disconnected sqrt (n : nat) m :
  is_connected (self m) = false ->
  (latencies <- latency_loop (S n) [] ;; lift (latency_results sqrt latencies))
    m =
    (Raise (RuntimeError "FPGA not connected"),
     {| self := self m; time_time := time_time m;
        perf_counter := {| feed := feed (perf_counter m);
                           pos := S (pos (perf_counter m)) |};
        random := random m |}).
Proof.
  intros Hc. apply bind_raise. now apply latency_loop_disconnected.
Qed.

(** X19.  [run_full_validation] on a controller that is not connected
    raises [RuntimeError] in its first test: the jitter and throughput
    tests are not run, no sample is read, and neither the controller nor
    the wall clock nor the random generator has changed. *)
Theorem run_full_validation_disconnected sqrt (fuel : nat) m :
  is_connected (self m) = false ->
  fst (run_full_validation sqrt fuel m) =
    Raise (RuntimeError "FPGA not connected") /\
  self (snd (run_full_validation sqrt fuel m)) = self m /\
  time_time (snd (run_full_validation sqrt fuel m)) = time_time m /\
  random (snd (run_full_validation sqrt fuel m)) = random m.
Proof.
  intros Hc. unfold run_full_validation, run_latency_test.
  destruct (Z.to_nat 1000) as [|n] eqn:En; [lia|].
  rewrite (bind_raise _ _ _ _ _ (latency_test_disconnected sqrt n m Hc)).
  repeat split.
Qed.

Lemma run_full_validation_disconnected_witness :
  is_connected (self fresh) = false /\
  fst (run_full_validation (fun x => x) 50 fresh) =
    Raise (RuntimeError "FPGA not connected") /\
  self (snd (run_full_validation (fun x => x) 50 fresh)) = self fresh /\
  time_time (snd (run_full_validation (fun x => x) 50 fresh)) =
    time_time fresh /\
  random (snd (run_full_validation (fun x => x) 50 fresh)) = random fresh.
Proof.
  split; [reflexivity|].
  apply (run_full_validation_disconnected (fun x => x) 50 fresh).
  reflexivity.
Defined.

(** The three tests one after the other on a connected controller, when
    the clock lets the jitter loop take [n1 >= 3] samples and the
    throughput loop [n2 >= 1]. *)
Lemma run_full_validation_run sqrt (n1 n2 fuel : nat) m :
  is_connected (self m) = true ->
  (n1 < fuel)%nat -> (n2 < fuel)%nat -> (3 <= n1)%nat -> (1 <= n2)%nat ->
  let f := feed (time_time m) in
  let p1 := (2 * Z.to_nat 1000 + pos (time_time m))%nat in
  let p2 := (2 * n1 + 2 + p1)%nat in
  stops_after f (S p1) (f p1) (inject_Z 30) n1 = true ->
  stops_after f (S p2) (f p2) (inject_Z 30) n2 = true ->
  exists latency jitter throughput samples1 samples2 m',
    run_full_validation sqrt fuel m =
      (Ok (Some [("latency", latency); ("jitter", jitter);
                 ("throughput", throughput)]%string), m') /\
    latency_results sqrt
      (elapsed_times (feed (perf_counter m)) (pos (perf_counter m))
         (Z.to_nat 1000)) = Ok latency /\
    jitter_results sqrt (map latency_us samples1) = Ok jitter /\
    throughput_results (map throughput_mbps samples2) = Ok throughput /\
    List.length samples1 = n1 /\ List.length samples2 = n2 /\
    self m' = {| config := config (self m);
                 is_connected := is_connected (self m);
                 metrics_history :=
                   metrics_history (self m) ++ samples1 ++ samples2 |}.
Proof.
  intros Hc Hf1 Hf2 Hn1 Hn2 f p1 p2 Hs1 Hs2.
  unfold run_full_validation.
  (* the latency test *)
  destruct (latency_results_two_or_more sqrt
              (elapsed_times (feed (perf_counter m)) (pos (perf_counter m))
                 (Z.to_nat 1000))) as (lat & Elat & _);
    [rewrite elapsed_times_length; lia|].
  assert (E1 : run_latency_test sqrt 1000 m =
               (Ok lat,
                {| self := self m;
                   time_time := {| feed := f; pos := p1 |};
                   perf_counter :=
                     {| feed := feed (perf_counter m);
                        pos := 2 * Z.to_nat 1000 + pos (perf_counter m) |};
                   random := random m |})).
  { unfold run_latency_test.
    rewrite (bind_ok _ _ _ _ _ (latency_loop_step _ m [] Hc)).
    cbn [app]. unfold lift. now rewrite Elat. }
  rewrite (bind_ok _ _ _ _ _ E1). cbv beta.
  (* the jitter test *)
  match goal with
  | |- context [bind (run_jitter_test _ _ _) _ ?M] =>
    destruct (timed_test_run latency_us (jitter_results sqrt) n1 fuel 30 M
                Hf1 Hs1) as (s1 & m2 & E2 & L2 & S2 & _ & _ & T2 & _)
  end.
  cbn [self time_time feed pos] in S2, T2.
  destruct (jitter_results_long sqrt (map latency_us s1))
    as (mx & _ & sd & Ejit); [rewrite length_map; lia|].
  rewrite Ejit in E2.
  unfold run_jitter_test at 1. rewrite (bind_ok _ _ _ _ _ E2). cbv beta iota.
  (* the throughput test *)
  assert (Hs2' : stops_after (feed (time_time m2)) (S (pos (time_time m2)))
                   (feed (time_time m2) (pos (time_time m2)))
                   (inject_Z 30) n2 = true)
    by (rewrite T2; exact Hs2).
  destruct (timed_test_run throughput_mbps throughput_results n2 fuel 30 m2
              Hf2 Hs2') as (s2 & m3 & E3 & L3 & S3 & _).
  assert (Hne : map throughput_mbps s2 <> [])
    by (destruct s2; [cbn in L3; lia | discriminate]).
  destruct (throughput_results_nonempty _ Hne) as (mn & mx' & _ & _ & Ethr).
  rewrite Ethr in E3.
  unfold run_throughput_test at 1. rewrite (bind_ok _ _ _ _ _ E3).
  cbv beta iota.
  eexists lat, _, _, s1, s2, m3.
  split; [reflexivity|]. split; [exact Elat|]. split; [exact Ejit|].
  split; [exact Ethr|]. split; [exact L2|]. split; [exact L3|].
  rewrite S3, S2. cbn. now rewrite <- app_assoc.
Qed.

Lemma disconnect_step m :
  disconnect m =
    (Ok tt,
     {| self := {| config := config (self m); is_connected := false;
                   metrics_history := metrics_history (self m) |};
        time_time := time_time m; perf_counter := perf_counter m;
        random := random m |}).
Proof. reflexivity. Qed.

(** X20.  [run_full_validation] on a connected controller whose number
    of active cores is within the range of exact arithmetic, when the
    clock lets the jitter loop take three samples or more and the
    throughput loop one or more (and the fuel of the model suffices),
    returns the results of the three tests under the keys [latency],
    [jitter] and [throughput]: those of 1000 measured latencies, of the
    samples of the jitter loop and of the samples of the throughput loop.
    The samples of both loops, in this order, are appended to the
    history; configuration and connection are unchanged. *)
Theorem run_full_validation_completes sqrt (n1 n2 fuel : nat) m :
  is_connected (self m) = true ->
  cores_in_range (active_cores (config (self m))) ->
  (n1 < fuel)%nat -> (n2 < fuel)%nat -> (3 <= n1)%nat -> (1 <= n2)%nat ->
  let f := feed (time_time m) in
  let p1 := (2 * Z.to_nat 1000 + pos (time_time m))%nat in
  let p2 := (2 * n1 + 2 + p1)%nat in
  stops_after f (S p1) (f p1) (inject_Z 30) n1 = true ->
  stops_after f (S p2) (f p2) (inject_Z 30) n2 = true ->
  let r := run_full_validation sqrt fuel m in
  exists latency jitter throughput samples1 samples2,
    fst r = Ok (Some [("latency", latency); ("jitter", jitter);
                      ("throughput", throughput)]%string) /\
    latency_results sqrt
      (elapsed_times (feed (perf_counter m)) (pos (perf_counter m))
         (Z.to_nat 1000)) = Ok latency /\
    jitter_results sqrt (map latency_us samples1) = Ok jitter /\
    throughput_results (map throughput_mbps samples2) = Ok throughput /\
    List.length samples1 = n1 /\ List.length samples2 = n2 /\
    metrics_history (self (snd r)) =
      metrics_history (self m) ++ samples1 ++ samples2 /\
    config (self (snd r)) = config (self m) /\
    is_connected (self (snd r)) = true.
Proof.
  intros Hc _ Hf1 Hf2 Hn1 Hn2 f p1 p2 Hs1 Hs2 r.
  destruct (run_full_validation_run sqrt n1 n2 fuel m Hc Hf1 Hf2 Hn1 Hn2
              Hs1 Hs2)
    as (lat & jit & thr & s1 & s2 & m' & E & Elat & Ejit & Ethr & L1 & L2 & S').
  exists lat, jit, thr, s1, s2. unfold r. rewrite E. cbn [fst snd].
  rewrite S'. cbn [self config is_connected metrics_history].
  split; [reflexivity|]. split; [exact Elat|]. split; [exact Ejit|].
  split; [exact Ethr|]. split; [exact L1|]. split; [exact L2|].
  split; [reflexivity|]. split; [reflexivity | exact Hc].
Qed.

Lemma run_full_validation_completes_witness :
  let f := feed (time_time connected) in
  is_connected (self connected) = true /\
  cores_in_range (active_cores (config (self connected))) /\
  stops_after f 2001 (f 2000%nat) (inject_Z 30) 15 = true /\
  stops_after f 2033 (f 2032%nat) (inject_Z 30) 15 = true /\
  exists latency jitter throughput samples1 samples2,
    fst (run_full_validation (fun x => x) 16 connected) =
      Ok (Some [("latency", latency); ("jitter", jitter);
                ("throughput", throughput)]%string) /\
    latency_results (fun x => x)
      (elapsed_times (feed (perf_counter connected))
         (pos (perf_counter connected)) (Z.to_nat 1000)) = Ok latency /\
    jitter_results (fun x => x) (map latency_us samples1) = Ok jitter /\
    throughput_results (map throughput_mbps samples2) = Ok throughput /\
    List.length samples1 = 15%nat /\ List.length samples2 = 15%nat /\
    metrics_history
      (self (snd (run_full_validation (fun x => x) 16 connected))) =
      metrics_history (self connected) ++ samples1 ++ samples2 /\
    config (self (snd (run_full_validation (fun x => x) 16 connected))) =
      config (self connected) /\
    is_connected
      (self (snd (run_full_validation (fun x => x) 16 connected))) = true.
Proof.
  intros f.
  assert (H1 : stops_after f 2001 (f 2000%nat) (inject_Z 30) 15 = true)
    by (vm_compute; reflexivity).
  assert (H2 : stops_after f 2033 (f 2032%nat) (inject_Z 30) 15 = true)
    by (vm_compute; reflexivity).
  assert (Hc : cores_in_range (active_cores (config (self connected))))
    by (unfold cores_in_range; cbn; lia).
  split; [reflexivity|]. split; [exact Hc|].
  split; [exact H1|]. split; [exact H2|].
  apply (run_full_validation_completes (fun x => x) 15 15 16 connected);
    [reflexivity | exact Hc | lia | lia | lia | lia | exact H1 | exact H2].
Defined.

(** X21.  [main] of [performance_profiler.py], under the same condition
    on the clock, returns the results of the three tests for every
    machine it is started on: it makes a new controller, so what the old
    one held does not matter.  It ends with the controller disconnected,
    configured with eight cores, a window of 2048 and a data rate of
    2000, and holding the samples of the jitter and throughput loops. *)
Theorem profiler_main_completes sqrt (n1 n2 fuel : nat) m :
  (n1 < fuel)%nat -> (n2 < fuel)%nat -> (3 <= n1)%nat -> (1 <= n2)%nat ->
  let f := feed (time_time m) in
  let p1 := (2 * Z.to_nat 1000 + pos (time_time m))%nat in
  let p2 := (2 * n1 + 2 + p1)%nat in
  stops_after f (S p1) (f p1) (inject_Z 30) n1 = true ->
  stops_after f (S p2) (f p2) (inject_Z 30) n2 = true ->
  let r := profiler_main sqrt fuel m in
  exists latency jitter throughput,
    fst r = Ok (Some [("latency", latency); ("jitter", jitter);
                      ("throughput", throughput)]%string) /\
    is_connected (self (snd r)) = false /\
    config (self (snd r)) =
      {| window_size := 2048; active_cores := 8; data_rate := 2000;
         filter_threshold := 100 |} /\
    List.length (metrics_history (self (snd r))) = (n1 + n2)%nat.
Proof.
  intros Hf1 Hf2 Hn1 Hn2 f p1 p2 Hs1 Hs2 r.
  unfold r, profiler_main.
  do 3 (erewrite bind_ok by reflexivity).
  match goal with
  | |- context [bind (run_full_validation _ _) _ ?M] =>
    destruct (run_full_validation_run sqrt n1 n2 fuel M eq_refl Hf1 Hf2
                Hn1 Hn2 Hs1 Hs2)
      as (lat & jit & thr & s1 & s2 & m' & E & _ & _ & _ & L1 & L2 & S')
  end.
  cbn [self config is_connected metrics_history fold_left app] in S'.
  rewrite (bind_ok _ _ _ _ _ E). cbv beta.
  exists lat, jit, thr.
  rewrite (bind_ok _ _ _ _ _ (disconnect_step m')). unfold ret.
  cbn [fst snd self config is_connected metrics_history]. rewrite S'.
  cbn [config is_connected metrics_history].
  rewrite !length_app, L1, L2. repeat split.
Qed.

Lemma profiler_main_completes_witness :
  let f := feed (time_time after_one_sample) in
  stops_after f 2002 (f 2001%nat) (inject_Z 30) 15 = true /\
  stops_after f 2034 (f 2033%nat) (inject_Z 30) 15 = true /\
  exists latency jitter throughput,
    fst (profiler_main (fun x => x) 16 after_one_sample) =
      Ok (Some [("latency", latency); ("jitter", jitter);
                ("throughput", throughput)]%string) /\
    is_connected
      (self (snd (profiler_main (fun x => x) 16 after_one_sample))) = false /\
    config (self (snd (profiler_main (fun x => x) 16 after_one_sample))) =
      {| window_size := 2048; active_cores := 8; data_rate := 2000;
         filter_threshold := 100 |} /\
    List.length
      (metrics_history
         (self (snd (profiler_main (fun x => x) 16 after_one_sample)))) =
      30%nat.
Proof.
  intros f.
  assert (H1 : stops_after f 2002 (f 2001%nat) (inject_Z 30) 15 = true)
    by (vm_compute; reflexivity).
  assert (H2 : stops_after f 2034 (f 2033%nat) (inject_Z 30) 15 = true)
    by (vm_compute; reflexivity).
  split; [exact H1|]. split; [exact H2|].
  apply (profiler_main_completes (fun x => x) 15 15 16 after_one_sample);
    [lia | lia | lia | lia | exact H1 | exact H2].
Defined.

End FullValidation.

(** ** The 99th percentile of [get_statistics] *)

Section WindowPercentile.

Implicit Types (m : Machine) (l : list Q).

(** For at most 100 values the nearest-rank index of the 99th percentile
    is the last one. *)
Lemma percentile_99_last l :
  l <> [] -> (List.length l <= 100)%nat ->
  spec_percentile 99 l = nth (List.length l - 1) (builtins.sorted l) 0.
Proof.
  intros Hne Hlen. pose proof (len_nonempty l Hne) as Hl.
  assert (Hr : (0 <= Qfloor (99 / 100 * inject_Z (builtins.len l))
                <= builtins.len l - 1)%Z)
    by (apply rank_index_range; [reflexivity | reflexivity | exact Hl]).
  assert (Hlo : (builtins.len l - 1
                 <= Qfloor (99 / 100 * inject_Z (builtins.len l)))%Z).
  { rewrite <- (Qfloor_Z (builtins.len l - 1)). apply Qfloor_resp_le.
    assert (HN : inject_Z (builtins.len l) <= 100).
    { change 100 with (inject_Z 100). rewrite <- Zle_Qle.
      unfold builtins.len. lia. }
    rewrite inject_Z_minus. change (inject_Z 1) with 1.
    set (N := inject_Z (builtins.len l)) in *.
    setoid_replace (99 / 100 * N) with (N - N / 100) by field.
    assert (N / 100 <= 1) by (apply Qle_shift_div_r; lra).
    lra. }
  unfold spec_percentile. f_equal. unfold clamp, builtins.len in *. lia.
Qed.

(** X22.  [get_statistics] works on at most 100 samples, so the 99th
    percentile it reports is the greatest latency of these samples: the
    entries [p99_latency_us] and [max_latency_us] are equal numbers. *)
Theorem get_statistics_p99_is_max m :
  metrics_history (self m) <> [] ->
  ~ builtins.sum (recent_latencies m)
    / inject_Z (builtins.len (recent_latencies m)) == 0 ->
  exists d p99 mx,
    get_statistics m = (Ok d, m) /\
    dict_get d "p99_latency_us" = Some p99 /\
    dict_get d "max_latency_us" = Some mx /\
    p99 == mx.
Proof.
  intros Hh Hm.
  pose proof (recent_latencies_nonempty m Hh) as Hne.
  destruct (get_statistics_entries m Hh Hm)
    as (mx & mn & mj & Hmx & _ & _ & Hrun).
  destruct (max_spec _ _ Hmx) as [Imx Fmx].
  eexists _, _, mx. split; [exact Hrun|]. do 2 (split; [reflexivity|]).
  assert (Hlen : (List.length (recent_latencies m) <= 100)%nat).
  { unfold recent_latencies. rewrite length_map, last_items_length. lia. }
  apply Qle_antisym.
  - rewrite Forall_forall in Fmx. apply Fmx. now apply spec_percentile_in.
  - rewrite (percentile_99_last _ Hne Hlen).
    apply (Permutation_in _ (sorted_perm _)) in Imx.
    destruct (In_nth _ _ 0 Imx) as (j & Hj & <-).
    rewrite <- (Permutation_length (sorted_perm _)) in Hj.
    apply sorted_nth_le. lia.
Qed.

Lemma get_statistics_p99_is_max_witness :
  let m := snd (read_metrics_n 4 after_one_sample) in
  metrics_history (self m) <> [] /\
  exists d p99 mx,
    get_statistics m = (Ok d, m) /\
    dict_get d "p99_latency_us" = Some p99 /\
    dict_get d "max_latency_us" = Some mx /\
    p99 == mx.
Proof.
  intros m.
  assert (Hh : metrics_history (self m) <> [])
    by (vm_compute; discriminate).
  assert (Hm : ~ builtins.sum (recent_latencies m)
                 / inject_Z (builtins.len (recent_latencies m)) == 0)
    by (intros H; vm_compute in H; discriminate).
  split; [exact Hh | exact (get_statistics_p99_is_max m Hh Hm)].
Defined.

End WindowPercentile.

(** ** The history and the window of the statistics *)

Section HistoryWindow.

Implicit Types (m : Machine) (h : list PerformanceMetrics).

Lemma last_items_idem {A} (k : nat) (l : list A) :
  builtins.last_items k (builtins.last_items k l) = builtins.last_items k l.
Proof.
  unfold builtins.last_items at 1. rewrite last_items_length.
  replace (Nat.min k (List.length l) - k)%nat with 0%nat by lia.
  reflexivity.
Qed.

(** Two histories with the same last 100 samples give the same
    statistics. *)
Lemma get_statistics_of_last_items m1 m2 :
  builtins.last_items 100 (metrics_history (self m1)) =
  builtins.last_items 100 (metrics_history (self m2)) ->
  fst (get_statistics m1) = fst (get_statistics m2).
Proof.
  intros Hw.
  assert (H0 : (0 < 100)%nat) by lia.
  assert (Hl : recent_latencies m1 = recent_latencies m2)
    by (unfold recent_latencies; now rewrite Hw).
  assert (Hj : recent_jitters m1 = recent_jitters m2)
    by (unfold recent_jitters; now rewrite Hw).
  assert (Hdec : metrics_history (self m1) = []
                 \/ metrics_history (self m1) <> [])
    by (destruct (metrics_history (self m1)); [now left | now right]).
  destruct Hdec as [E1 | H1].
  - assert (E2 : metrics_history (self m2) = []).
    { apply (last_items_nil_iff 100 _ H0). rewrite <- Hw, E1. reflexivity. }
    unfold get_statistics, bind, get_self. now rewrite E1, E2.
  - assert (H2 : metrics_history (self m2) <> []).
    { intros E2. apply H1. apply (last_items_nil_iff 100 _ H0).
      rewrite Hw, E2. reflexivity. }
    pose proof (get_statistics_run m1 H1) as [Hz1 _].
    pose proof (get_statistics_run m2 H2) as [Hz2 _].
    pose proof (get_statistics_entries m1 H1) as R1.
    pose proof (get_statistics_entries m2 H2) as R2.
    cbv zeta in R1, R2. rewrite <- Hl in Hz2, R2. rewrite <- Hj in R2.
    destruct (Qeq_dec (builtins.sum (recent_latencies m1)
                       / inject_Z (builtins.len (recent_latencies m1))) 0)
      as [Hm | Hm].
    + now rewrite (Hz1 Hm), (Hz2 Hm).
    + destruct (R1 Hm) as (mx & mn & mj & Hmx & Hmn & Hmj & E1).
      destruct (R2 Hm) as (mx' & mn' & mj' & Hmx' & Hmn' & Hmj' & E2).
      rewrite E1, E2. cbn [fst]. congruence.
Qed.

(** C4, as amended.  The history is not bounded: on a configuration
    within the range of exact arithmetic, [n] calls of [read_metrics]
    succeed and make the history [n] samples longer, keeping every older
    sample in its place.  The bound of 100 is on what [get_statistics]
    reads: the window of the last [min 100 length] samples of the
    history, in insertion order.  Its result is the one it gives on the
    window alone, and after 100 calls or more the window is exactly the
    last 100 samples returned, oldest first. *)
Theorem history_unbounded_statistics_window (n : nat) m :
  cores_in_range (active_cores (config (self m))) ->
  exists samples m',
    read_metrics_n n m = (Ok samples, m') /\
    List.length samples = n /\
    metrics_history (self m') = metrics_history (self m) ++ samples /\
    let h := metrics_history (self m') in
    let window := builtins.last_items 100 h in
    (exists older, h = older ++ window) /\
    List.length window = Nat.min 100 (List.length h) /\
    ((100 <= n)%nat -> window = skipn (n - 100) samples) /\
    (forall m2, metrics_history (self m2) = window ->
                fst (get_statistics m2) = fst (get_statistics m')).
Proof.
  intros _.
  destruct (read_metrics_n_run n m) as (samples & m' & Hrun & Hlen & Hh & _).
  exists samples, m'. do 3 (split; [assumption|]). cbv zeta.
  split; [|split; [|split]].
  - exists (firstn (List.length (metrics_history (self m')) - 100)
              (metrics_history (self m'))).
    unfold builtins.last_items. symmetry. apply firstn_skipn.
  - apply last_items_length.
  - intros Hn. rewrite Hh, last_items_app by lia. now rewrite Hlen.
  - intros m2 H2. apply get_statistics_of_last_items.
    rewrite H2. apply last_items_idem.
Qed.

Lemma history_unbounded_statistics_window_witness :
  cores_in_range (active_cores (config (self connected))) /\
  exists samples m',
    read_metrics_n 101 connected = (Ok samples, m') /\
    List.length samples = 101%nat /\
    metrics_history (self m') = metrics_history (self connected) ++ samples /\
    (exists older,
        metrics_history (self m') =
        older ++ builtins.last_items 100 (metrics_history (self m'))) /\
    List.length (builtins.last_items 100 (metrics_history (self m'))) =
      Nat.min 100 (List.length (metrics_history (self m'))) /\
    builtins.last_items 100 (metrics_history (self m')) = skipn 1 samples /\
    fst (get_statistics
           (machine_of
              {| config := FPGAConfig_default; is_connected := false;
                 metrics_history :=
                   builtins.last_items 100 (metrics_history (self m')) |}
              halves)) =
    fst (get_statistics m').
Proof.
  assert (Hc : cores_in_range (active_cores (config (self connected))))
    by (unfold cores_in_range; cbn; lia).
  split; [exact Hc|].
  destruct (history_unbounded_statistics_window 101 connected Hc)
    as (samples & m' & E & L & Hh & Hrest).
  cbv zeta in Hrest. destruct Hrest as (Hold & Hlen & Hw & Hst).
  exists samples, m'. do 3 (split; [assumption|]).
  split; [exact Hold|]. split; [exact Hlen|].
  split; [apply Hw; lia | apply Hst; reflexivity].
Defined.

End HistoryWindow.
